(** * tray_app.py: the Teleport tunnel lifecycle, embedded in Rocq

    A shallow embedding of the lifecycle core of [tray_app.py]
    ([generate_config], [activate_tunnel], [deactivate_tunnel],
    [is_tunnel_active], [show_pin_dialog] and the four [on_*] handlers).

    Python's effects are made explicit: every function is a computation
    over a [World] (files under [CONFIG_DIR], the state of the external
    collaborators, and the trace of observable actions) that returns a
    value, raises an exception, or runs out of loop fuel. *)

From Stdlib Require Import ZArith NArith Ascii String Floats.
From stdpp Require Import gmap strings list.

Local Open Scope Z_scope.
Local Open Scope string_scope.
Set Warnings "-inexact-float".
Local Arguments String.append !_ _ / : simpl nomatch.

(** ** Python strings

    A Python [str] is modelled as a [string] whose characters are the
    code points below 256. *)

Module PyStr.

Definition code (c : ascii) : N := N_of_ascii c.

(** [str.isspace] on one character: TAB..CR, FS..US, SPACE, NEL, NBSP. *)
Definition isspace (c : ascii) : bool :=
  let n := code c in
  ((9 <=? n) && (n <=? 13) || (28 <=? n) && (n <=? 32)
   || (n =? 133) || (n =? 160))%N.

(** [str.lower] on one character: A..Z and the upper-case letters of
    the Latin-1 supplement move up by 32. *)
Definition lower_char (c : ascii) : ascii :=
  let n := code c in
  if ((65 <=? n) && (n <=? 90)
      || (192 <=? n) && (n <=? 222) && negb (n =? 215))%N
  then ascii_of_N (n + 32) else c.

Fixpoint lower (s : string) : string :=
  match s with
  | EmptyString => EmptyString
  | String c s' => String (lower_char c) (lower s')
  end.

Fixpoint lstrip (s : string) : string :=
  match s with
  | EmptyString => EmptyString
  | String c s' => if isspace c then lstrip s' else s
  end.

Fixpoint rev_onto (s acc : string) : string :=
  match s with
  | EmptyString => acc
  | String c s' => rev_onto s' (String c acc)
  end.

Definition rev (s : string) : string := rev_onto s EmptyString.

Definition rstrip (s : string) : string := rev (lstrip (rev s)).

(** [s.strip()] *)
Definition strip (s : string) : string := rstrip (lstrip s).

(** [needle in hay] *)
Fixpoint contains (needle hay : string) : bool :=
  String.prefix needle hay ||
  match hay with
  | EmptyString => false
  | String _ hay' => contains needle hay'
  end.

(** The characters that delimit a string stripped by [strip]. *)
Definition first_char (s : string) : option ascii :=
  match s with EmptyString => None | String c _ => Some c end.

Definition last_char (s : string) : option ascii := first_char (rev s).

Definition no_outer_space (s : string) : bool :=
  match first_char s, last_char s with
  | Some a, Some b => negb (isspace a) && negb (isspace b)
  | _, _ => true
  end.

End PyStr.

(** ** Text-mode file I/O on Windows

    [open(p, 'w')] and [open(p, 'r')] use the default [newline=None]:
    on writing every LF becomes CR LF ([os.linesep]); on reading, CR LF
    and a lone CR both become LF.  They also use the locale's encoding.
    A file is known here by the characters its bytes stand for in that
    encoding; a text that the encoding cannot represent makes the write
    fail, which is one of the answers of [ext_write] below. *)

Module TextIO.

Definition LF : ascii := ascii_of_N 10.
Definition CR : ascii := ascii_of_N 13.

Fixpoint encode (s : string) : string :=
  match s with
  | EmptyString => EmptyString
  | String c s' =>
      if Ascii.eqb c LF then String CR (String LF (encode s'))
      else String c (encode s')
  end.

Fixpoint decode (s : string) : string :=
  match s with
  | EmptyString => EmptyString
  | String c s' =>
      if Ascii.eqb c CR then
        match s' with
        | String c' s'' =>
            if Ascii.eqb c' LF then String LF (decode s'')
            else String LF (decode s')
        | EmptyString => String LF EmptyString
        end
      else String c (decode s')
  end.

Fixpoint no_cr (s : string) : bool :=
  match s with
  | EmptyString => true
  | String c s' => negb (Ascii.eqb c CR) && no_cr s'
  end.

End TextIO.

(** ** Captured output

    [capture_output=True] without [text=True] hands the streams over as
    [bytes].  The program only ever calls [decode()] on them, so a
    [bytes] value is known here by what strict UTF-8 decoding makes of
    it: the text, or the [UnicodeDecodeError] it raises. *)
Inductive bytes : Type :=
| Utf8 (text : string)
| Undecodable (reason : string).

(** ** Exceptions and results *)

(** The exception classes the program can meet.  Every exception
    carries [str(e)]; [CalledProcessError] also carries the return code
    and the captured standard error of the failed command. *)
Inductive exn : Type :=
| CalledProcessError (msg : string) (returncode : Z) (stderr : bytes)
| TimeoutExpired (msg : string)
| FileNotFoundError (msg : string)
| OSError (msg : string)
| UnicodeDecodeError (msg : string)
| Exception (msg : string).

(** [str(e)] *)
Definition str (e : exn) : string :=
  match e with
  | CalledProcessError m _ _ | TimeoutExpired m | FileNotFoundError m
  | OSError m | UnicodeDecodeError m | Exception m => m
  end.

(** What a function call can end in.  [OutOfFuel] only arises from the
    bounded unrolling of a [while] loop and is not a Python exception:
    no handler catches it. *)
Inductive result (A : Type) : Type :=
| Return (a : A)
| Raise (e : exn)
| OutOfFuel.
Arguments Return {A} a.
Arguments Raise {A} e.
Arguments OutOfFuel {A}.

(** ** The external collaborators *)

(** [subprocess.CompletedProcess].  Only the status query reads
    [stdout], and it asks for [text=True], so [stdout] is text; only the
    handlers of the [wireguard.exe] commands read [stderr], which they
    get as [bytes]. *)
Record CompletedProcess : Type := {
  returncode : Z;
  stdout : string;
  stderr : bytes
}.

(** How [subprocess.run] can fail before a return code exists. *)
Inductive LaunchError : Type :=
| LaunchTimeout          (* subprocess.TimeoutExpired *)
| LaunchNotFound         (* FileNotFoundError: no such executable *)
| LaunchOSError (msg : string).

Definition launch_exn (l : LaunchError) : exn :=
  match l with
  | LaunchTimeout => TimeoutExpired "Command timed out"
  | LaunchNotFound =>
      FileNotFoundError "[WinError 2] The system cannot find the file specified"
  | LaunchOSError m => OSError m
  end.

(** Everything the program talks to: the process launcher (behind it,
    [wireguard.exe] and [sc]), the [teleport] module, the dialogs, the
    [APPDATA] environment variable, and the operating system's answer
    to [f.write(s)] on a file just opened for writing ([ext_write p s]:
    the locale's encoding may lack a character of [s], the disk may be
    full; a failure comes with the number of characters that reached
    the file before it).  [X] is the collaborators' own state; a
    launched process may read the files it is pointed at. *)
Class External (X : Type) : Type := {
  APPDATA : string;
  ext_run : list string → gmap string string → X → X * (LaunchError + CompletedProcess);
  ext_generate_client_hint : X → X * (exn + string);
  ext_get_device_token : string → string → X → X * (exn + string);
  ext_connect_device : string → X → X * (exn + string);
  ext_write : string → string → X → X * (exn * nat + unit);
  ext_Tk : X → X * (exn + unit);
  ext_withdraw : X → X * (exn + unit);
  ext_destroy : X → X * (exn + unit);
  ext_askstring : string → string → X → X * (exn + option string);
  ext_askyesno : string → string → X → X * (exn + bool);
  ext_showinfo : string → string → X → X * (exn + unit);
  ext_showerror : string → string → X → X * (exn + unit)
}.

(** ** The world *)

(** Observable actions, in the order the program performs them. *)
Inductive Event : Type :=
| ERun (args : list string)
| ESleep (seconds : float)
| EWarning (msg : string)
| ERemote (fn : string) (args : list string)
| EAskString (title prompt : string)
| EAskYesNo (title message : string)
| EShowInfo (title message : string)
| EShowError (title message : string).

Record World (X : Type) : Type := {
  files : gmap string string;  (* path ↦ content on disk *)
  locked : gset string;        (* paths the OS refuses to write or remove *)
  ext : X;
  trace : list Event
}.
Arguments files {X} w.
Arguments locked {X} w.
Arguments ext {X} w.
Arguments trace {X} w.

(** ** The computation monad: state, exceptions, fuel *)

Definition M (X A : Type) : Type := World X → World X * result A.

Section Monad.
Context {X : Type}.

Definition ret {A} (a : A) : M X A := λ w, (w, Return a).

Definition raise {A} (e : exn) : M X A := λ w, (w, Raise e).

Definition bind {A B} (m : M X A) (k : A → M X B) : M X B :=
  λ w, match m w with
       | (w', Return a) => k a w'
       | (w', Raise e) => (w', Raise e)
       | (w', OutOfFuel) => (w', OutOfFuel)
       end.

(** [try: m  except ...: h].  The handler answers [None] for an
    exception no [except] clause matches, which then propagates. *)
Definition try_except {A} (m : M X A) (h : exn → option (M X A)) : M X A :=
  λ w, match m w with
       | (w', Raise e) =>
           match h e with Some k => k w' | None => (w', Raise e) end
       | other => other
       end.

Definition emit (e : Event) : M X unit :=
  λ w, ({| files := files w; locked := locked w; ext := ext w;
           trace := trace w ++ [e] |}, Return tt).

(** A call into a collaborator, lifted into the monad. *)
Definition call {A} (f : X → X * (exn + A)) : M X A :=
  λ w, let '(x', r) := f (ext w) in
       ({| files := files w; locked := locked w; ext := x'; trace := trace w |},
        match r with inl e => Raise e | inr a => Return a end).
End Monad.

Declare Scope py_scope.
Delimit Scope py_scope with py.
Notation "x ← y ; z" := (bind y (λ x, z))
  (at level 20, y at level 100, z at level 200, only parsing) : py_scope.
Notation "' x ← y ; z" := (bind y (λ x, z))
  (at level 20, x pattern, y at level 100, z at level 200, only parsing) : py_scope.
Notation "x ;; z" := (bind x (λ _, z))
  (at level 100, z at level 200, only parsing, right associativity) : py_scope.
Local Open Scope py_scope.

(** ** Truthiness *)

Class Truthy (A : Type) : Type := truthy : A → bool.

Global Instance truthy_bool : Truthy bool := λ b, b.
Global Instance truthy_string : Truthy string :=
  λ s, match s with EmptyString => false | _ => true end.
Global Instance truthy_option {A} `{Truthy A} : Truthy (option A) :=
  λ o, match o with None => false | Some a => truthy a end.

(** A function object, as opposed to the value of a call to it. *)
Inductive FunctionObject : Type := function (name : string).
Global Instance truthy_function : Truthy FunctionObject := λ _, true.

(** ** Windows paths

    [os.path] is [ntpath]; [splitdrive] and [join] follow its source in
    CPython 3.11, [join] for the two-argument calls of the program. *)

Module NtPath.

Definition sep : ascii := "\".
Definition altsep : ascii := "/".
Definition colon : ascii := ":".
Definition unc_prefix : string := "\\?\UNC\".

(** [c in seps] *)
Definition is_sep (c : ascii) : bool := Ascii.eqb c sep || Ascii.eqb c altsep.

(** [s.replace(a, b)] for one-character [a] and [b] *)
Fixpoint replace (a b : ascii) (s : string) : string :=
  match s with
  | EmptyString => EmptyString
  | String c s' => String (if Ascii.eqb c a then b else c) (replace a b s')
  end.

(** [s[:n]] and [s[n:]] *)
Fixpoint take (n : nat) (s : string) : string :=
  match n, s with
  | S n', String c s' => String c (take n' s')
  | _, _ => EmptyString
  end.

Fixpoint drop (n : nat) (s : string) : string :=
  match n, s with
  | S n', String _ s' => drop n' s'
  | _, _ => s
  end.

(** [s.find(c, start)], with [None] for -1 *)
Fixpoint find (c : ascii) (s : string) (start : nat) : option nat :=
  match s with
  | EmptyString => None
  | String d s' =>
      match start with
      | O => if Ascii.eqb d c then Some O else option_map S (find c s' O)
      | S n => option_map S (find c s' n)
      end
  end.

(** [str.upper] on one character: a..z and the lower-case letters of
    the Latin-1 supplement move down by 32.  The three characters whose
    upper-case form lies outside the model's characters (the micro
    sign, sharp s and y with diaeresis) are left as they are: no
    character of [unc_prefix] is the upper-case form of one of them. *)
Definition upper_char (c : ascii) : ascii :=
  let n := PyStr.code c in
  if ((97 <=? n) && (n <=? 122)
      || (224 <=? n) && (n <=? 254) && negb (n =? 247))%N
  then ascii_of_N (n - 32) else c.

Fixpoint upper (s : string) : string :=
  match s with
  | EmptyString => EmptyString
  | String c s' => String (upper_char c) (upper s')
  end.

(** [ntpath.splitdrive(p)] *)
Definition splitdrive (p : string) : string * string :=
  if (2 <=? String.length p)%nat then
    let normp := replace altsep sep p in
    if String.eqb (take 2 normp) "\\" then
      (* UNC drives and device drives *)
      let start := if String.eqb (upper (take 8 normp)) unc_prefix then 8%nat else 2%nat in
      match find sep normp start with
      | None => (p, "")
      | Some index =>
          match find sep normp (index + 1) with
          | None => (p, "")
          | Some index2 => (take index2 p, drop index2 p)
          end
      end
    else if String.eqb (take 1 (drop 1 normp)) ":" then
      (* Drive-letter drives *)
      (take 2 p, drop 2 p)
    else ("", p)
  else ("", p).

(** [s and s[0] in seps], [s and s[-1] in seps], [s[-1:] == colon] *)
Definition starts_with_sep (s : string) : bool :=
  match PyStr.first_char s with Some c => is_sep c | None => false end.

Definition ends_with_sep (s : string) : bool :=
  match PyStr.last_char s with Some c => is_sep c | None => false end.

Definition ends_with_colon (s : string) : bool :=
  match PyStr.last_char s with Some c => Ascii.eqb c colon | None => false end.

(** The last lines of [join]: a separator is added between a UNC drive
    and a path that is not absolute. *)
Definition joined (result_drive result_path : string) : string :=
  if truthy result_path && negb (starts_with_sep result_path)
     && truthy result_drive && negb (ends_with_colon result_drive)
  then result_drive ++ String sep result_path
  else result_drive ++ result_path.

(** [ntpath.join(path, p)] *)
Definition join (path p : string) : string :=
  let '(result_drive, result_path) := splitdrive path in
  let '(p_drive, p_path) := splitdrive p in
  if starts_with_sep p_path then
    (* Second path is absolute *)
    joined (if truthy p_drive || negb (truthy result_drive) then p_drive
            else result_drive) p_path
  else if truthy p_drive && negb (String.eqb p_drive result_drive)
          && negb (String.eqb (PyStr.lower p_drive) (PyStr.lower result_drive)) then
    (* Different drives: the first path is ignored *)
    joined p_drive p_path
  else
    (* Second path is relative to the first *)
    let result_drive :=
      if truthy p_drive && negb (String.eqb p_drive result_drive) then p_drive
      else result_drive in
    let result_path :=
      if truthy result_path && negb (ends_with_sep result_path)
      then result_path ++ String sep "" else result_path in
    joined result_drive (result_path ++ p_path).

End NtPath.

(** ** The program *)

Section Program.
Context {X : Type} `{External X}.

Local Abbreviation M := (M X).

(** *** Library calls *)

(** [os.path.join(a, b)] *)
Definition path_join (a b : string) : string := NtPath.join a b.

(** [os.path.exists(p)] *)
Definition path_exists (p : string) : M bool :=
  λ w, (w, Return (bool_decide (is_Some (files w !! p)))).

(** [with open(p, 'r') as f: f.read()] *)
Definition read_text (p : string) : M string :=
  λ w, match files w !! p with
       | Some c => (w, Return (TextIO.decode c))
       | None => (w, Raise (FileNotFoundError "[Errno 2] No such file or directory"))
       end.

(** What is left of [s] in a file when the write stopped after [n]
    characters. *)
Definition torn (n : nat) (s : string) : string :=
  String.substring 0 n (TextIO.encode s).

(** [with open(p, 'w') as f: f.write(s)].  When [open] is refused
    nothing changes.  Otherwise the file is created or truncated first,
    and a write that then fails leaves it with what was written so far:
    nothing at all when [s] cannot be encoded. *)
Definition write_text (p s : string) : M unit :=
  λ w, if decide (p ∈ locked w)
       then (w, Raise (OSError "[Errno 13] Permission denied"))
       else
         let '(x', r) := ext_write p s (ext w) in
         match r with
         | inl (e, n) =>
             ({| files := <[p := torn n s]> (files w); locked := locked w;
                 ext := x'; trace := trace w |}, Raise e)
         | inr _ =>
             ({| files := <[p := TextIO.encode s]> (files w); locked := locked w;
                 ext := x'; trace := trace w |}, Return tt)
         end.

(** [b.decode()] *)
Definition bytes_decode (b : bytes) : M string :=
  match b with
  | Utf8 text => ret text
  | Undecodable reason => raise (UnicodeDecodeError reason)
  end.

(** [os.remove(p)] *)
Definition os_remove (p : string) : M unit :=
  λ w, match files w !! p with
       | None => (w, Raise (FileNotFoundError "[WinError 2] The system cannot find the file specified"))
       | Some _ =>
           if decide (p ∈ locked w)
           then (w, Raise (OSError "[WinError 5] Access is denied"))
           else ({| files := delete p (files w); locked := locked w;
                    ext := ext w; trace := trace w |}, Return tt)
       end.

(** [time.sleep(seconds)] *)
Definition time_sleep (seconds : float) : M unit := emit (ESleep seconds).

(** [logging.warning(msg)] *)
Definition logging_warning (msg : string) : M unit := emit (EWarning msg).

(** [subprocess.run(args, capture_output=True, check=check)].  The
    [text=True] and [timeout=5] of the status query stay with the
    launcher: the streams arrive decoded, and an expired timeout is the
    launch error [LaunchTimeout]. *)
Definition subprocess_run (args : list string) (check : bool) : M CompletedProcess :=
  λ w, let '(x', r) := ext_run args (files w) (ext w) in
       let w' := {| files := files w; locked := locked w; ext := x';
                    trace := trace w ++ [ERun args] |} in
       match r with
       | inl l => (w', Raise (launch_exn l))
       | inr cp =>
           if check && negb (returncode cp =? 0)%Z
           then (w', Raise (CalledProcessError "Command returned non-zero exit status"
                              (returncode cp) (stderr cp)))
           else (w', Return cp)
       end.

Definition generate_client_hint : M string :=
  emit (ERemote "generate_client_hint" []);; call ext_generate_client_hint.

Definition get_device_token (client_hint pin : string) : M string :=
  emit (ERemote "get_device_token" [client_hint; pin]);;
  call (ext_get_device_token client_hint pin).

Definition connect_device (device_token : string) : M string :=
  emit (ERemote "connect_device" [device_token]);;
  call (ext_connect_device device_token).

Definition tk_Tk : M unit := call ext_Tk.

Definition root_withdraw : M unit := call ext_withdraw.

Definition root_destroy : M unit := call ext_destroy.

Definition askstring (title prompt : string) : M (option string) :=
  emit (EAskString title prompt);; call (ext_askstring title prompt).

Definition askyesno (title message : string) : M bool :=
  emit (EAskYesNo title message);; call (ext_askyesno title message).

Definition showinfo (title message : string) : M unit :=
  emit (EShowInfo title message);; call (ext_showinfo title message).

Definition showerror (title message : string) : M unit :=
  emit (EShowError title message);; call (ext_showerror title message).

(** *** Module constants *)

Definition CONFIG_DIR : string := path_join APPDATA "AmpliFiTeleport".
Definition UUID_FILE : string := path_join CONFIG_DIR "teleport_uuid".
Definition TOKEN_FILE : string := path_join CONFIG_DIR "teleport_token_0".
Definition CONFIG_PATH : string := path_join CONFIG_DIR "teleport.conf".
Definition WG_EXE : string := "wireguard.exe".

Definition uninstall_cmd : list string := [WG_EXE; "/uninstalltunnelservice"; "teleport"].
Definition install_cmd : list string := [WG_EXE; "/installtunnelservice"; CONFIG_PATH].
Definition query_cmd : list string := ["sc"; "query"; "WireGuardTunnel$teleport"].

(** *** generate_config *)

Definition generate_config (pin : option string) : M (bool * string) :=
  try_except
    (device_token ←
       (if truthy pin then
          client_hint ←
            (present ← path_exists UUID_FILE;
             if present then
               content ← read_text UUID_FILE; ret (PyStr.strip content)
             else
               client_hint ← generate_client_hint;
               write_text UUID_FILE client_hint;;
               ret client_hint);
          device_token ← get_device_token client_hint (default "" pin);
          write_text TOKEN_FILE device_token;;
          ret device_token
        else
          present ← path_exists TOKEN_FILE;
          if negb present then
            raise (Exception "No previous token found. Please enter a new PIN.")
          else
            content ← read_text TOKEN_FILE; ret (PyStr.strip content));
     config_str ← connect_device device_token;
     write_text CONFIG_PATH config_str;;
     ret (true, config_str))
    (λ e, Some (ret (false, str e))).

(** *** activate_tunnel *)

Definition activate_tunnel : M (bool * string) :=
  present ← path_exists CONFIG_PATH;
  if negb present then ret (false, "No config found. Generate one first.")
  else
    try_except
      (subprocess_run uninstall_cmd false;;
       subprocess_run install_cmd true;;
       ret (true, "Tunnel activated!"))
      (λ e, match e with
            | CalledProcessError _ _ err =>
                Some (detail ← bytes_decode err;
                      ret (false, "Activation failed: " ++ detail))
            | _ => None
            end).

(** *** is_tunnel_active *)

(** One pass through the body of the [for] loop: [Some b] when the
    body executed [return b], [None] when it ran to its end. *)
Definition is_tunnel_active_body (delay : float) (attempt : nat) : M (option bool) :=
  returned ←
    try_except
      (result ← subprocess_run query_cmd false;
       let output := PyStr.lower (stdout result) in
       if (returncode result =? 0)%Z then
         if PyStr.contains "running" output then ret (Some true)
         else if PyStr.contains "stopped" output || PyStr.contains "1  stopped" output
              then ret (Some false)
              else ret (Some false)
       else ret (Some false))
      (λ e, match e with
            | TimeoutExpired _ | FileNotFoundError _ =>
                Some (logging_warning "Could not query service";; ret (Some false))
            | _ =>
                Some (logging_warning ("Tunnel check failed: " ++ str e);;
                      ret (Some false))
            end);
  match returned with
  | Some b => ret (Some b)
  | None => time_sleep delay;; ret None
  end.

(** [for attempt in range(n): body], stopping at the first [return]. *)
Fixpoint for_range {A} (n : nat) (attempt : nat) (body : nat → M (option A)) : M (option A) :=
  match n with
  | O => ret None
  | S n' =>
      returned ← body attempt;
      match returned with
      | Some a => ret (Some a)
      | None => for_range n' (S attempt) body
      end
  end.

Definition is_tunnel_active (retries : Z) (delay : float) : M bool :=
  returned ← for_range (Z.to_nat retries) 0%nat (is_tunnel_active_body delay);
  match returned with
  | Some b => ret b
  | None => ret false
  end.

(** *** deactivate_tunnel *)

Definition max_wait : float := 8.0%float.
Definition poll_interval : float := 0.8%float.

(** [while elapsed < max_wait: ...], unrolled at most [fuel] times;
    [Some r] when the loop body executed [return r]. *)
Fixpoint poll_loop (fuel : nat) (elapsed : float) : M (option (bool * string)) :=
  match fuel with
  | O => λ w, (w, OutOfFuel)
  | S fuel' =>
      if PrimFloat.ltb elapsed max_wait then
        active ← is_tunnel_active 3 1.0%float;
        if negb active then ret (Some (true, "Tunnel deactivated!"))
        else
          time_sleep poll_interval;;
          poll_loop fuel' (elapsed + poll_interval)%float
      else ret None
  end.

Definition poll_fuel : nat := 16.

Definition deactivate_tunnel : M (bool * string) :=
  try_except
    (subprocess_run uninstall_cmd true;;
     returned ← poll_loop poll_fuel 0.0%float;
     match returned with
     | Some r => ret r
     | None => ret (true, "Tunnel deactivation requested (status may take a moment to update)")
     end)
    (λ e, match e with
          | CalledProcessError _ _ err =>
              Some (detail ← bytes_decode err;
                    if PyStr.contains "not found" (PyStr.lower detail)
                    then ret (false, "Tunnel not active.")
                    else
                      detail ← bytes_decode err;
                      ret (false, "Deactivation failed: " ++ detail))
          | _ => None
          end).

(** *** Dialog flow and menu handlers *)

Definition show_pin_dialog (and_activate : bool) : M unit :=
  tk_Tk;;
  root_withdraw;;
  pin ← askstring "AmpliFi Teleport" "Enter your Teleport PIN (e.g., AB123):";
  root_destroy;;
  if truthy pin then
    '(success, msg) ← generate_config pin;
    if success then
      if and_activate then
        '(act_success, act_msg) ← activate_tunnel;
        showinfo "Result" (if act_success then act_msg else "Error: " ++ act_msg)
      else showinfo "Result" "Config generated successfully!"
    else showerror "Error" ("Generation failed: " ++ msg)
  else ret tt.

(** The handlers return a [(success, msg)] pair, or [None] where the
    Python function falls off its end or executes a bare [return]. *)
Definition on_refresh_config : M (option (bool * string)) :=
  present ← path_exists TOKEN_FILE;
  if negb present then
    showerror "Error" "No previous configuration. Enter a PIN first.";;
    ret None
  else
    '(success, msg) ← generate_config None;
    if success then
      '(act_success, act_msg) ← activate_tunnel;
      showinfo "Result" (if act_success then act_msg else "Error: " ++ act_msg);;
      ret (Some (act_success, act_msg))
    else
      showerror "Error" ("Refresh failed: " ++ msg);;
      ret (Some (success, msg)).

Definition on_connect : M (option (bool * string)) :=
  present ← path_exists TOKEN_FILE;
  if negb present then
    try_except
      (show_pin_dialog true;;
       ret (Some (true, "Successfully Created New Connection")))
      (λ e, Some (ret (Some (false, "Error Creating New Connection"))))
  else on_refresh_config.

Definition on_disconnect : M (bool * string) :=
  if negb (truthy (function "is_tunnel_active")) then
    showerror "Error" "No Teleport Tunnel is active";;
    ret (false, "No Teleport Tunnel is active")
  else
    '(success, msg) ← deactivate_tunnel;
    showinfo "Tunnel" (if success then msg else "Error: " ++ msg);;
    ret (success, msg).

Definition on_delete_config : M (option (bool * string)) :=
  confirmed ← askyesno "Confirm" "Delete previous configuration and reset?";
  if confirmed then
    try_except
      (deactivate_tunnel;;
       (present ← path_exists TOKEN_FILE;
        if present then os_remove TOKEN_FILE else ret tt);;
       (present ← path_exists UUID_FILE;
        if present then os_remove UUID_FILE else ret tt);;
       (present ← path_exists CONFIG_PATH;
        if present then os_remove CONFIG_PATH else ret tt);;
       showinfo "Deleted" "Configuration deleted. You can now enter a new PIN.";;
       ret (Some (true, "Configuration Deleted")))
      (λ e, Some (showerror "Error" ("Deletion failed: " ++ str e);;
                  ret (Some (false, "Error while deleting configuration"))))
  else ret None.

End Program.

(** ** A simulated host

    A small deterministic instance of [External], used to run the
    program on concrete inputs.  The service manager keeps at most one
    tunnel service; after a removal, [sc query] may go on reporting
    RUNNING for a configurable number of queries. *)

Module Sim.

Record Setup : Type := {
  wg_present : bool;                 (* wireguard.exe is on PATH *)
  accepts_config : bool;             (* the manager accepts the config file *)
  lag : nat;                         (* stale RUNNING reports after a removal *)
  sc_failure : option LaunchError;   (* how launching sc fails, if it does *)
  new_hint : string;                 (* generate_client_hint() *)
  remote_token : exn + string;       (* get_device_token(...) *)
  remote_config : exn + string;      (* connect_device(...) *)
  pin_entry : option string;         (* what the user types; None = cancel *)
  confirm : bool;                    (* answer to askyesno *)
  gui_failure : option exn           (* how every dialog call fails, if so *)
}.

Record State : Type := {
  service : option string;           (* config of the installed service *)
  lingering : nat                    (* stale RUNNING reports still to come *)
}.

Definition running_report : string :=
  "SERVICE_NAME: WireGuardTunnel$teleport  TYPE : 10  WIN32_OWN_PROCESS  STATE : 4  RUNNING".

Definition missing_report : string :=
  "[SC] EnumQueryServicesStatus:OpenService FAILED 1060: The specified service does not exist as an installed service.".

Definition completed (rc : Z) (out err : string) : LaunchError + CompletedProcess :=
  inr {| returncode := rc; stdout := out; stderr := Utf8 err |}.

Definition wireguard (s : Setup) (op arg : string) (fs : gmap string string) (x : State)
  : State * (LaunchError + CompletedProcess) :=
  if negb (wg_present s) then (x, inl LaunchNotFound)
  else if String.eqb op "/uninstalltunnelservice" then
    match service x with
    | Some _ => ({| service := None; lingering := lag s |}, completed 0 "" "")
    | None => (x, completed 1 "" "Uninstall failed: service not found")
    end
  else if String.eqb op "/installtunnelservice" then
    match fs !! arg, service x with
    | None, _ => (x, completed 1 "" "Unable to open configuration file")
    | Some _, Some _ => (x, completed 1 "" "Tunnel already installed and running")
    | Some c, None =>
        if accepts_config s
        then ({| service := Some c; lingering := 0 |}, completed 0 "" "")
        else (x, completed 1 "" "Unable to parse configuration")
    end
  else (x, completed 1 "" "Unknown command").

Definition sc (s : Setup) (x : State) : State * (LaunchError + CompletedProcess) :=
  match sc_failure s with
  | Some l => (x, inl l)
  | None =>
      match service x, lingering x with
      | Some _, _ => (x, completed 0 running_report "")
      | None, S n => ({| service := None; lingering := n |}, completed 0 running_report "")
      | None, O => (x, completed 1060 missing_report "")
      end
  end.

Definition run (s : Setup) (args : list string) (fs : gmap string string) (x : State)
  : State * (LaunchError + CompletedProcess) :=
  match args with
  | [exe; op; arg] =>
      if String.eqb exe "wireguard.exe" then wireguard s op arg fs x
      else if String.eqb exe "sc" then sc s x
      else (x, inl LaunchNotFound)
  | _ => (x, inl LaunchNotFound)
  end.

Definition dialog {A} (s : Setup) (a : A) (x : State) : State * (exn + A) :=
  match gui_failure s with
  | Some e => (x, inl e)
  | None => (x, inr a)
  end.

Definition external (s : Setup) : External State := {|
  APPDATA := "C:\Users\me\AppData\Roaming";
  ext_run := run s;
  ext_generate_client_hint := λ x, (x, inr (new_hint s));
  ext_get_device_token := λ _ _ x, (x, remote_token s);
  ext_connect_device := λ _ x, (x, remote_config s);
  ext_write := λ _ _ x, (x, inr tt);
  ext_Tk := dialog s tt;
  ext_withdraw := dialog s tt;
  ext_destroy := dialog s tt;
  ext_askstring := λ _ _, dialog s (pin_entry s);
  ext_askyesno := λ _ _, dialog s (confirm s);
  ext_showinfo := λ _ _, dialog s tt;
  ext_showerror := λ _ _, dialog s tt
|}.

(** A healthy host: everything installed, the remote services answer,
    the user types a PIN and confirms. *)
Definition healthy : Setup := {|
  wg_present := true; accepts_config := true; lag := 0; sc_failure := None;
  new_hint := "3f2a9c";
  remote_token := inr "tok-71";
  remote_config := inr "[Interface]";
  pin_entry := Some "AB123"; confirm := true; gui_failure := None
|}.

(** The removal is acknowledged at once, but the service goes on
    reporting RUNNING for the next 20 status queries. *)
Definition slow_to_stop : Setup := {|
  wg_present := true; accepts_config := true; lag := 20; sc_failure := None;
  new_hint := "3f2a9c";
  remote_token := inr "tok-71";
  remote_config := inr "[Interface]";
  pin_entry := Some "AB123"; confirm := true; gui_failure := None
|}.

(** Every launch of [sc] times out. *)
Definition sc_times_out : Setup := {|
  wg_present := true; accepts_config := true; lag := 0;
  sc_failure := Some LaunchTimeout;
  new_hint := "3f2a9c";
  remote_token := inr "tok-71";
  remote_config := inr "[Interface]";
  pin_entry := Some "AB123"; confirm := true; gui_failure := None
|}.

(** The credential service answers with a token that ends in a space. *)
Definition padded_token : Setup := {|
  wg_present := true; accepts_config := true; lag := 0; sc_failure := None;
  new_hint := "3f2a9c";
  remote_token := inr "tok-71 ";
  remote_config := inr "[Interface]";
  pin_entry := Some "AB123"; confirm := true; gui_failure := None
|}.

(** The credential service answers with a token that carries a
    carriage return. *)
Definition cr_token : Setup := {|
  wg_present := true; accepts_config := true; lag := 0; sc_failure := None;
  new_hint := "3f2a9c";
  remote_token := inr (String "t" (String TextIO.CR "k"));
  remote_config := inr "[Interface]";
  pin_entry := Some "AB123"; confirm := true; gui_failure := None
|}.

(** The service manager refuses the configuration it is given. *)
Definition rejects_config : Setup := {|
  wg_present := true; accepts_config := false; lag := 0; sc_failure := None;
  new_hint := "3f2a9c";
  remote_token := inr "tok-71";
  remote_config := inr "[Interface]";
  pin_entry := Some "AB123"; confirm := true; gui_failure := None
|}.

Definition world (fs : list (string * string)) (lk : list string) (svc : option string)
  : World State :=
  {| files := list_to_map fs; locked := list_to_set lk;
     ext := {| service := svc; lingering := 0 |}; trace := [] |}.

Definition uuid_path : string := "C:\Users\me\AppData\Roaming\AmpliFiTeleport\teleport_uuid".
Definition token_path : string := "C:\Users\me\AppData\Roaming\AmpliFiTeleport\teleport_token_0".
Definition config_path : string := "C:\Users\me\AppData\Roaming\AmpliFiTeleport\teleport.conf".

(** All three slots present. *)
Definition full_slots : list (string * string) :=
  [(uuid_path, "3f2a9c"); (token_path, "tok-71"); (config_path, "[Interface]")].

End Sim.

(** ** Reading traces *)

Local Open Scope list_scope.

Fixpoint count (f : Event → bool) (evs : list Event) : nat :=
  match evs with
  | [] => 0
  | e :: evs' => (if f e then 1 else 0) + count f evs'
  end.

(** A launch of the status query [sc query WireGuardTunnel$teleport]. *)
Definition is_query (e : Event) : bool :=
  match e with ERun args => bool_decide (args = query_cmd) | _ => false end.

(** The durations slept, in order. *)
Fixpoint sleeps (evs : list Event) : list float :=
  match evs with
  | [] => []
  | ESleep s :: evs' => s :: sleeps evs'
  | _ :: evs' => sleeps evs'
  end.

(** The argument lists of the calls made to one [teleport] function. *)
Fixpoint remote_args (fn : string) (evs : list Event) : list (list string) :=
  match evs with
  | [] => []
  | ERemote g args :: evs' =>
      if String.eqb fn g then args :: remote_args fn evs' else remote_args fn evs'
  | _ :: evs' => remote_args fn evs'
  end.

(** The success flag of an outcome; an exception is no success. *)
Definition succeeded (r : result (bool * string)) : bool :=
  match r with Return (ok, _) => ok | _ => false end.

Section Observations.
Context {X : Type} `{External X}.

(** What one status query answers: the positive "running" signal. *)
Definition running_reported (r : LaunchError + CompletedProcess) : bool :=
  match r with
  | inr cp => (returncode cp =? 0)%Z && PyStr.contains "running" (PyStr.lower (stdout cp))
  | inl _ => false
  end.

(** The warning logged for a query that could not be made. *)
Definition query_warning (r : LaunchError + CompletedProcess) : list Event :=
  match r with
  | inl LaunchTimeout | inl LaunchNotFound => [EWarning "Could not query service"]
  | inl (LaunchOSError m) => [EWarning ("Tunnel check failed: " ++ m)%string]
  | inr _ => []
  end.

(** The world after one status query answered [r]. *)
Definition after_query (w : World X) (x' : X) (r : LaunchError + CompletedProcess) : World X :=
  {| files := files w; locked := locked w; ext := x';
     trace := trace w ++ ERun query_cmd :: query_warning r |}.

(** The world after a process was launched with [args]. *)
Definition after_run (w : World X) (args : list string) (x' : X) : World X :=
  {| files := files w; locked := locked w; ext := x';
     trace := trace w ++ [ERun args] |}.

Definition advisory : string :=
  "Tunnel deactivation requested (status may take a moment to update)".

(** The value of [elapsed] after [n] passes through the poll loop. *)
Fixpoint elapsed_after (n : nat) : float :=
  match n with
  | O => 0.0%float
  | S n' => (elapsed_after n' + poll_interval)%float
  end.

(** [polls fuel elapsed n]: from [elapsed] on, the loop returns within
    [fuel] unrollings, after at most [n] status polls, leaving the
    files alone. *)
Definition polls (fuel : nat) (elapsed : float) (n : nat) : Prop :=
  ∀ w : World X, ∃ w' r evs,
    poll_loop fuel elapsed w = (w', Return r)
    ∧ (r = Some (true, "Tunnel deactivated!") ∨ r = None)
    ∧ files w' = files w ∧ locked w' = locked w
    ∧ trace w' = trace w ++ evs
    ∧ (count is_query evs ≤ n)%nat.

(** [preserves I m]: running [m] keeps the invariant [I] of the world. *)
Definition preserves {A} (I : World X → Prop) (m : M X A) : Prop :=
  ∀ w, I w → I (m w).1.

(** An invariant that only looks at the files and at the locks. *)
Definition on_files (P : gmap string string → gset string → Prop) : World X → Prop :=
  λ w, P (files w) (locked w).

(** [fuel_free m]: [m] never runs out of fuel. *)
Definition fuel_free {A} (m : M X A) : Prop :=
  ∀ w, (m w).2 ≠ OutOfFuel.

(** [total m]: [m] always returns a value. *)
Definition total {A} (m : M X A) : Prop :=
  ∀ w, ∃ w' a, m w = (w', Return a).

(** What deleting the slots [ps] one after the other leaves of the
    files [fs]: an absent slot is skipped, and the first slot whose
    removal is refused ends the sequence. *)
Fixpoint delete_slots (ps : list string) (lk : gset string) (fs : gmap string string)
  : gmap string string :=
  match ps with
  | [] => fs
  | p :: ps' =>
      match fs !! p with
      | None => delete_slots ps' lk fs
      | Some _ => if decide (p ∈ lk) then fs else delete_slots ps' lk (delete p fs)
      end
  end.

(** No dialog call raises. *)
Definition dialogs_never_raise : Prop :=
  (∀ x, ∃ x', ext_Tk x = (x', inr tt))
  ∧ (∀ x, ∃ x', ext_withdraw x = (x', inr tt))
  ∧ (∀ x, ∃ x', ext_destroy x = (x', inr tt))
  ∧ (∀ t m x, ∃ x' a, ext_askstring t m x = (x', inr a))
  ∧ (∀ t m x, ∃ x', ext_showinfo t m x = (x', inr tt))
  ∧ (∀ t m x, ∃ x', ext_showerror t m x = (x', inr tt)).

(** The world once the PIN prompt has been answered and closed. *)
Definition prompted (w : World X) (x : X) : World X :=
  {| files := files w; locked := locked w; ext := x;
     trace := trace w ++
       [EAskString "AmpliFi Teleport" "Enter your Teleport PIN (e.g., AB123):"] |}.

(** The world once a dialog, recorded as [e], has been shown. *)
Definition shown (e : Event) (w : World X) (x : X) : World X :=
  {| files := files w; locked := locked w; ext := x; trace := trace w ++ [e] |}.

(** The two pairs [on_connect] returns on its first-connection path. *)
Definition connected : bool * string := (true, "Successfully Created New Connection").
Definition not_connected : bool * string := (false, "Error Creating New Connection").

(** Every operation of the program except the reset. *)
Inductive Op : Type :=
| GenerateConfig (pin : option string)
| ActivateTunnel
| DeactivateTunnel
| IsTunnelActive (retries : Z) (delay : float)
| ShowPinDialog (and_activate : bool)
| OnRefreshConfig
| OnConnect
| OnDisconnect.

(** The world an operation leaves behind. *)
Definition run_op (o : Op) (w : World X) : World X :=
  match o with
  | GenerateConfig pin => (generate_config pin w).1
  | ActivateTunnel => (activate_tunnel w).1
  | DeactivateTunnel => (deactivate_tunnel w).1
  | IsTunnelActive retries delay => (is_tunnel_active retries delay w).1
  | ShowPinDialog and_activate => (show_pin_dialog and_activate w).1
  | OnRefreshConfig => (on_refresh_config w).1
  | OnConnect => (on_connect w).1
  | OnDisconnect => (on_disconnect w).1
  end.

End Observations.

(** ** The rest of the module: elevation and the controls window *)

(** What [is_admin] and [run_elevated] talk to: the interpreter's
    [sys.executable] and [sys.argv], and the two [shell32] entry points. *)
Class Elevation (X : Type) : Type := {
  sys_executable : string;
  sys_argv : list string;
  ext_IsUserAnAdmin : X → X * (exn + Z);
  ext_ShellExecuteW : string → string → string → X → X * (exn + Z)
}.

(** An integer is truthy when it is not zero; [False] is the integer 0. *)
Global Instance truthy_Z : Truthy Z := λ z, negb (z =? 0)%Z.

(** The handlers a button of the window can be bound to. *)
Inductive Handler : Type := Hconnect | Hdisconnect | Hdelete.

(** What a button does when pressed: [action_and_refresh(handler)], or
    [sys.exit(0)]. *)
Inductive Command : Type :=
| ActionAndRefresh (h : Handler)
| SysExit (code : Z).

(** A [CTkButton], by the arguments that differ between buttons. *)
Record Button : Type := {
  text : string;
  fg_color : string;
  hover_color : string;
  command : Command
}.

(** The widgets [refresh_buttons] manages: the children of
    [content_frame], and the labels it packs onto [root]. *)
Record Window : Type := {
  content_frame : list Button;
  root_labels : list string
}.

Section Startup.
Context {X : Type} `{External X} `{Elevation X}.

(** *** is_admin, run_elevated *)

(** The bare [except:] catches whatever the check raises. *)
Definition is_admin : M X Z :=
  try_except (call ext_IsUserAnAdmin) (λ _, Some (ret 0)).

(** [sys.exit(code)] ends the function: it returns [Some code] where the
    Python function raises [SystemExit], and [None] where it runs to its
    end. *)
Definition run_elevated : M X (option Z) :=
  admin ← is_admin;
  if negb (truthy admin) then
    call (ext_ShellExecuteW "runas" sys_executable (String.concat " " sys_argv));;
    ret (Some 0)
  else ret None.

(** *** open_options_window: refresh_buttons, action_and_refresh *)

Definition connect_button : Button :=
  {| text := "Connect"; fg_color := "#1a9aff"; hover_color := "#0d6efd";
     command := ActionAndRefresh Hconnect |}.

Definition disconnect_button : Button :=
  {| text := "Disconnect"; fg_color := "#1a9aff"; hover_color := "#0d6efd";
     command := ActionAndRefresh Hdisconnect |}.

Definition delete_button : Button :=
  {| text := "Delete Existing Configuration"; fg_color := "#1a9aff";
     hover_color := "#0d6efd"; command := ActionAndRefresh Hdelete |}.

Definition quit_button : Button :=
  {| text := "Quit"; fg_color := "#e74c3c"; hover_color := "#c0392b";
     command := SysExit 0 |}.

(** [CTkButton(content_frame, ...).pack(...)] *)
Definition pack (b : Button) (win : Window) : Window :=
  {| content_frame := content_frame win ++ [b]; root_labels := root_labels win |}.

Definition refresh_buttons (win : Window) : M X Window :=
  (* for widget in content_frame.winfo_children(): widget.destroy() *)
  let win := {| content_frame := []; root_labels := root_labels win |} in
  tunnel_active ← is_tunnel_active 4 0.8%float;
  let win := if negb tunnel_active then pack connect_button win else win in
  let win := if tunnel_active then pack disconnect_button win else win in
  any_slot ←
    (token ← path_exists TOKEN_FILE;
     if token then ret true
     else uuid ← path_exists UUID_FILE;
          if uuid then ret true else path_exists CONFIG_PATH);
  let win := if any_slot then pack delete_button win else win in
  let win := pack quit_button win in
  ret {| content_frame := content_frame win;
         root_labels := root_labels win ++ ["Version 1.0.0"] |}.

(** [action_func(icon=None, item=None)] *)
Definition run_handler (h : Handler) : M X (option (bool * string)) :=
  match h with
  | Hconnect => on_connect
  | Hdisconnect => r ← on_disconnect; ret (Some r)
  | Hdelete => on_delete_config
  end.

Definition action_and_refresh (action_func : Handler) (win : Window) : M X Window :=
  returned ← run_handler action_func;
  match returned with
  | None =>
      (* success, msg = None *)
      raise (Exception "cannot unpack non-iterable NoneType object")
  | Some (success, msg) =>
      (match action_func with
       | Hdisconnect => time_sleep 2.0%float
       | _ => ret tt
       end);;
      refresh_buttons win
  end.

End Startup.

(** ** More to observe *)

Section MoreObservations.
Context {X : Type} `{External X}.

(** An invariant that only looks at the trace. *)
Definition on_trace (T : list Event → Prop) : World X → Prop :=
  λ w, T (trace w).

(** The trace has grown from [t0] by events that all fail [f]. *)
Definition grown_without (f : Event → bool) (t0 t : list Event) : Prop :=
  ∃ evs, t = t0 ++ evs ∧ count f evs = 0%nat.

(** A PIN is asked for, or spent on a new token. *)
Definition asks_pin (e : Event) : bool :=
  match e with
  | EAskString _ _ => true
  | ERemote fn _ => String.eqb fn "get_device_token"
  | _ => false
  end.

(** The three slots. *)
Definition slots : list string := [TOKEN_FILE; UUID_FILE; CONFIG_PATH].

(** Every operation of the program, the reset included. *)
Inductive AnyOp : Type :=
| Plain (o : Op)
| OnDeleteConfig.

Definition run_any (o : AnyOp) (w : World X) : World X :=
  match o with
  | Plain o => run_op o w
  | OnDeleteConfig => (on_delete_config w).1
  end.

(** Some slot file exists. *)
Definition any_slot_exists (fs : gmap string string) : bool :=
  bool_decide (is_Some (fs !! TOKEN_FILE))
  || bool_decide (is_Some (fs !! UUID_FILE))
  || bool_decide (is_Some (fs !! CONFIG_PATH)).

End MoreObservations.

Module Sim2.

(** More hosts: each differs from [Sim.healthy] in one respect. *)
Definition no_wireguard : Sim.Setup := {|
  Sim.wg_present := false; Sim.accepts_config := true; Sim.lag := 0;
  Sim.sc_failure := None; Sim.new_hint := "3f2a9c";
  Sim.remote_token := inr "tok-71"; Sim.remote_config := inr "[Interface]";
  Sim.pin_entry := Some "AB123"; Sim.confirm := true; Sim.gui_failure := None
|}.

Definition config_exchange_down : Sim.Setup := {|
  Sim.wg_present := true; Sim.accepts_config := true; Sim.lag := 0;
  Sim.sc_failure := None; Sim.new_hint := "3f2a9c";
  Sim.remote_token := inr "tok-71";
  Sim.remote_config := inl (Exception "503 Service Unavailable");
  Sim.pin_entry := Some "AB123"; Sim.confirm := true; Sim.gui_failure := None
|}.

Definition pin_cancelled : Sim.Setup := {|
  Sim.wg_present := true; Sim.accepts_config := true; Sim.lag := 0;
  Sim.sc_failure := None; Sim.new_hint := "3f2a9c";
  Sim.remote_token := inr "tok-71"; Sim.remote_config := inr "[Interface]";
  Sim.pin_entry := None; Sim.confirm := true; Sim.gui_failure := None
|}.

Definition declines : Sim.Setup := {|
  Sim.wg_present := true; Sim.accepts_config := true; Sim.lag := 0;
  Sim.sc_failure := None; Sim.new_hint := "3f2a9c";
  Sim.remote_token := inr "tok-71"; Sim.remote_config := inr "[Interface]";
  Sim.pin_entry := Some "AB123"; Sim.confirm := false; Sim.gui_failure := None
|}.

(** The identity generator hands out a hint with a trailing blank. *)
Definition padded_hint : Sim.Setup := {|
  Sim.wg_present := true; Sim.accepts_config := true; Sim.lag := 0;
  Sim.sc_failure := None; Sim.new_hint := "3f2a9c ";
  Sim.remote_token := inr "tok-71"; Sim.remote_config := inr "[Interface]";
  Sim.pin_entry := Some "AB123"; Sim.confirm := true; Sim.gui_failure := None
|}.

(** A healthy host on which every command is refused. *)
Definition access_denied : External Sim.State := {|
  APPDATA := "C:\Users\me\AppData\Roaming";
  ext_run := λ _ _ x, (x, Sim.completed 5 "" "Access is denied.");
  ext_generate_client_hint := λ x, (x, inr "3f2a9c");
  ext_get_device_token := λ _ _ x, (x, inr "tok-71");
  ext_connect_device := λ _ x, (x, inr "[Interface]");
  ext_write := λ _ _ x, (x, inr tt);
  ext_Tk := Sim.dialog Sim.healthy tt;
  ext_withdraw := Sim.dialog Sim.healthy tt;
  ext_destroy := Sim.dialog Sim.healthy tt;
  ext_askstring := λ _ _, Sim.dialog Sim.healthy (Some "AB123");
  ext_askyesno := λ _ _, Sim.dialog Sim.healthy true;
  ext_showinfo := λ _ _, Sim.dialog Sim.healthy tt;
  ext_showerror := λ _ _, Sim.dialog Sim.healthy tt
|}.

(** A host on which every command fails and leaves bytes that are not
    UTF-8 on its standard error. *)
Definition garbled : External Sim.State := {|
  APPDATA := "C:\Users\me\AppData\Roaming";
  ext_run := λ _ _ x,
    (x, inr {| returncode := 1; stdout := "";
               stderr := Undecodable "'utf-8' codec can't decode byte 0x81 in position 0: invalid start byte" |});
  ext_generate_client_hint := λ x, (x, inr "3f2a9c");
  ext_get_device_token := λ _ _ x, (x, inr "tok-71");
  ext_connect_device := λ _ x, (x, inr "[Interface]");
  ext_write := λ _ _ x, (x, inr tt);
  ext_Tk := Sim.dialog Sim.healthy tt;
  ext_withdraw := Sim.dialog Sim.healthy tt;
  ext_destroy := Sim.dialog Sim.healthy tt;
  ext_askstring := λ _ _, Sim.dialog Sim.healthy (Some "AB123");
  ext_askyesno := λ _ _, Sim.dialog Sim.healthy true;
  ext_showinfo := λ _ _, Sim.dialog Sim.healthy tt;
  ext_showerror := λ _ _, Sim.dialog Sim.healthy tt
|}.

(** A host whose disk is full when the config is written: the file is
    opened, and nothing reaches it. *)
Definition disk_full : External Sim.State := {|
  APPDATA := "C:\Users\me\AppData\Roaming";
  ext_run := @ext_run _ (Sim.external Sim.healthy);
  ext_generate_client_hint := λ x, (x, inr "3f2a9c");
  ext_get_device_token := λ _ _ x, (x, inr "tok-71");
  ext_connect_device := λ _ x, (x, inr "[Interface]");
  ext_write := λ p _ x,
    (x, if String.eqb p Sim.config_path
        then inl (OSError "[Errno 28] No space left on device", 0%nat)
        else inr tt);
  ext_Tk := Sim.dialog Sim.healthy tt;
  ext_withdraw := Sim.dialog Sim.healthy tt;
  ext_destroy := Sim.dialog Sim.healthy tt;
  ext_askstring := λ _ _, Sim.dialog Sim.healthy (Some "AB123");
  ext_askyesno := λ _ _, Sim.dialog Sim.healthy true;
  ext_showinfo := λ _ _, Sim.dialog Sim.healthy tt;
  ext_showerror := λ _ _, Sim.dialog Sim.healthy tt
|}.

(** The admin check answers [admin]; the relaunch request answers 42. *)
Definition elevation (admin : exn + Z) : Elevation Sim.State := {|
  sys_executable := "C:\Python\python.exe";
  sys_argv := ["tray_app.py"];
  ext_IsUserAnAdmin := λ x, (x, admin);
  ext_ShellExecuteW := λ _ _ _ x, (x, inr 42)
|}.

End Sim2.

(** * Properties *)

(** ** Strings *)

Module PyStrFacts.
Import PyStr.
Local Open Scope string_scope.

Lemma append_assoc (a b c : string) : (a ++ b) ++ c = a ++ (b ++ c).
Proof. induction a; simpl; congruence. Qed.

Lemma rev_onto_app (s acc : string) : rev_onto s acc = rev s ++ acc.
Proof.
  unfold rev. revert acc.
  induction s as [|c s IH]; intros acc; simpl; [done|].
  rewrite (IH (String c acc)), (IH (String c EmptyString)).
  by rewrite append_assoc.
Qed.

Lemma append_empty_r (s : string) : s ++ "" = s.
Proof. induction s; simpl; congruence. Qed.

Lemma rev_cons (c : ascii) (s : string) : rev (String c s) = rev s ++ String c "".
Proof. unfold rev at 1. simpl. apply rev_onto_app. Qed.

Lemma rev_app (a b : string) : rev (a ++ b) = rev b ++ rev a.
Proof.
  induction a as [|c a IH]; simpl.
  - by rewrite append_empty_r.
  - by rewrite !rev_cons, IH, append_assoc.
Qed.

Lemma rev_involutive (s : string) : rev (rev s) = s.
Proof.
  induction s as [|c s IH]; [done|].
  by rewrite rev_cons, rev_app, IH.
Qed.

Lemma last_char_app (a : string) (c : ascii) (b : string) : last_char (a ++ String c b) = last_char (String c b).
Proof.
  unfold last_char. rewrite rev_app, rev_cons.
  destruct (rev b); reflexivity.
Qed.

Lemma lstrip_id (s : string) :
  match first_char s with Some c => isspace c = false | None => True end →
  lstrip s = s.
Proof. destruct s as [|c s]; simpl; [done|]. by intros ->. Qed.

Lemma strip_id (s : string) : no_outer_space s = true → strip s = s.
Proof.
  unfold no_outer_space, strip, rstrip, last_char. intros Hs.
  destruct s as [|c s]; [done|].
  destruct (first_char (rev (String c s))) as [d|] eqn:Hd; simpl in Hs.
  - apply andb_prop in Hs as [Hc Hl].
    rewrite (lstrip_id (String c s)) by (simpl; by destruct (isspace c)).
    rewrite lstrip_id by (rewrite Hd; by destruct (isspace d)).
    apply rev_involutive.
  - rewrite rev_cons in Hd. by destruct (rev s).
Qed.

Lemma append_inj_r (a b c : string) : a ++ b = a ++ c → b = c.
Proof. induction a; simpl; [done|]. intros [=]. auto. Qed.

End PyStrFacts.

Module TextIOFacts.
Import TextIO.

(** Text written and read back is unchanged, unless it carries a
    carriage return. *)
Lemma decode_encode (s : string) : no_cr s = true → decode (encode s) = s.
Proof.
  induction s as [|c s IH]; simpl; [done|].
  intros [Hc Hs]%andb_prop. apply negb_true_iff in Hc.
  destruct (Ascii.eqb c LF) eqn:Hlf.
  - apply Ascii.eqb_eq in Hlf as ->. simpl. by rewrite IH.
  - simpl. rewrite Hc. by rewrite IH.
Qed.

End TextIOFacts.

(** ** Paths *)

Module NtPathFacts.
Import PyStr NtPath.
Local Open Scope string_scope.

Lemma take_drop (n : nat) (s : string) : take n s ++ drop n s = s.
Proof.
  revert s. induction n as [|n IH]; intros [|c s]; simpl; try done.
  by rewrite IH.
Qed.

Lemma find_first (c : ascii) (s : string) (start i : nat) :
  find c s start = Some i → first_char (drop i s) = Some c.
Proof.
  revert start i. induction s as [|d s IH]; intros start i; simpl; [done|].
  destruct start as [|n].
  - destruct (Ascii.eqb d c) eqn:Hd.
    + intros [= <-]. simpl. by apply Ascii.eqb_eq in Hd as ->.
    + destruct (find c s 0) as [j|] eqn:Hj; simpl; [|done].
      intros [= <-]. simpl. by apply (IH 0%nat).
  - destruct (find c s n) as [j|] eqn:Hj; simpl; [|done].
    intros [= <-]. simpl. by apply (IH n).
Qed.

Lemma drop_replace (a b : ascii) (n : nat) (s : string) :
  drop n (replace a b s) = replace a b (drop n s).
Proof. revert s. induction n as [|n IH]; intros [|c s]; simpl; auto. Qed.

Lemma first_char_normalised (s : string) :
  first_char (replace altsep sep s) = Some sep → starts_with_sep s = true.
Proof.
  unfold starts_with_sep, is_sep. destruct s as [|c s]; simpl; [done|].
  destruct (Ascii.eqb c altsep) eqn:Hc; [by rewrite orb_true_r|].
  intros [= ->]. done.
Qed.

(** What [splitdrive] returns: the two parts make up the path, and a
    drive that is followed by a path ends in a colon or is followed by
    a separator. *)
Lemma splitdrive_shape (p d r : string) :
  splitdrive p = (d, r) →
  d ++ r = p
  ∧ (d = "" ∨ r = "" ∨ starts_with_sep r = true ∨ ends_with_colon d = true).
Proof.
  unfold splitdrive.
  destruct (2 <=? String.length p)%nat; [|intros [= <- <-]; auto].
  destruct (String.eqb (take 2 _) "\\").
  - destruct (find sep _ _) as [index|]; [|intros [= <- <-]; split; [apply PyStrFacts.append_empty_r|auto]].
    destruct (find sep _ (index + 1)) as [index2|] eqn:H2;
      [|intros [= <- <-]; split; [apply PyStrFacts.append_empty_r|auto]].
    intros [= <- <-]. split; [apply take_drop|].
    right; right; left. apply first_char_normalised.
    rewrite <- drop_replace. by apply find_first in H2.
  - destruct (String.eqb (take 1 (drop 1 _)) ":") eqn:Hc; [|intros [= <- <-]; auto].
    intros [= <- <-]. split; [exact (take_drop 2 p)|].
    right; right; right.
    destruct p as [|a [|b p]]; simpl in Hc; try done.
    destruct (Ascii.eqb b altsep); [done|].
    destruct (Ascii.eqb b ":") eqn:Hb; [|done].
    apply Ascii.eqb_eq in Hb as ->. reflexivity.
Qed.

Lemma last_char_nonempty (s : string) (c : ascii) : last_char s = Some c → s ≠ "".
Proof. by intros Hs ->. Qed.

Lemma first_char_app (a b : string) :
  a ≠ "" → first_char (a ++ b) = first_char a.
Proof. by destruct a. Qed.

(** [join] with a relative second path that has no drive: the second
    path is appended, and after a first path that ends in a character
    other than a separator and a colon, a separator goes in between. *)
Lemma join_relative (path p : string) (c : ascii) :
  splitdrive p = ("", p) →
  first_char p = Some c →
  is_sep c = false →
  ∃ pre, join path p = pre ++ p
         ∧ ∀ e, last_char path = Some e → is_sep e = false → e ≠ colon →
                pre = path ++ "\".
Proof.
  intros Hp Hc Hsep. unfold join. rewrite Hp.
  destruct (splitdrive path) as [d r] eqn:Hpath.
  apply splitdrive_shape in Hpath as [<- Hshape].
  assert (starts_with_sep p = false) as -> by (unfold starts_with_sep; by rewrite Hc).
  cbn [truthy truthy_string andb].
  destruct p as [|c' p]; [done|]. injection Hc as ->.
  destruct r as [|a r].
  - rewrite PyStrFacts.append_empty_r. cbn [truthy truthy_string andb String.append].
    unfold joined. cbn [truthy truthy_string andb].
    assert (starts_with_sep (String c p) = false) as ->
      by (unfold starts_with_sep; simpl; done).
    cbn [negb andb].
    destruct (truthy d && negb (ends_with_colon d)) eqn:Hd.
    + exists (d ++ "\"). split; [by rewrite PyStrFacts.append_assoc|done].
    + exists d. split; [done|]. intros e He Hes Hec. exfalso.
      apply andb_false_iff in Hd as [Hd|Hd].
      * apply last_char_nonempty in He. by destruct d.
      * apply negb_false_iff in Hd. unfold ends_with_colon in Hd. rewrite He in Hd.
        by apply Ascii.eqb_eq in Hd.
  - assert (∀ q, joined d (String a r ++ q) = d ++ String a r ++ q) as Hj.
    { intros q. unfold joined, starts_with_sep in *.
      change (String a r ++ q) with (String a (r ++ q)).
      cbv [truthy truthy_string first_char] in *.
      destruct Hshape as [-> | [Hr | [Hr | Hd]]]; [|done| |].
      - by rewrite andb_false_r.
      - by rewrite Hr.
      - rewrite Hd. by rewrite !andb_false_r. }
    cbn [truthy truthy_string andb].
    destruct (ends_with_sep (String a r)) eqn:Hend; cbn [negb].
    + rewrite Hj. exists (d ++ String a r).
      split; [by rewrite PyStrFacts.append_assoc|].
      intros e He Hes _. exfalso. rewrite PyStrFacts.last_char_app in He.
      unfold ends_with_sep in Hend. rewrite He in Hend. congruence.
    + rewrite (PyStrFacts.append_assoc (String a r)), Hj.
      exists ((d ++ String a r) ++ "\"). split; [|done].
      by rewrite !PyStrFacts.append_assoc.
Qed.

(** [join] on a profile directory, a bare drive, a name that only looks
    like a drive, UNC roots, and no directory at all. *)
Example join_examples :
  join "C:\Users\me\AppData\Roaming" "AmpliFiTeleport"
  = "C:\Users\me\AppData\Roaming\AmpliFiTeleport"
  ∧ join "C:\" "AmpliFiTeleport" = "C:\AmpliFiTeleport"
  ∧ join "C:/" "AmpliFiTeleport" = "C:/AmpliFiTeleport"
  ∧ join "C:" "AmpliFiTeleport" = "C:AmpliFiTeleport"
  ∧ join "foo:" "AmpliFiTeleport" = "foo:\AmpliFiTeleport"
  ∧ join "C:foo:" "AmpliFiTeleport" = "C:foo:\AmpliFiTeleport"
  ∧ join "\\host\share" "AmpliFiTeleport" = "\\host\share\AmpliFiTeleport"
  ∧ join "\\host\share\" "AmpliFiTeleport" = "\\host\share\AmpliFiTeleport"
  ∧ join "\\host\share:" "AmpliFiTeleport" = "\\host\share:AmpliFiTeleport"
  ∧ join "\\host\" "AmpliFiTeleport" = "\\host\\AmpliFiTeleport"
  ∧ join "\\?\UNC\h\s" "AmpliFiTeleport" = "\\?\UNC\h\s\AmpliFiTeleport"
  ∧ join "" "AmpliFiTeleport" = "AmpliFiTeleport"
  ∧ join "C:\Users" "D:x" = "D:x"
  ∧ join "C:\Users" "c:x" = "c:\Users\x"
  ∧ join "C:\Users" "\x" = "C:\x".
Proof. vm_compute. repeat split; reflexivity. Qed.

End NtPathFacts.

(** ** The three slots are three different paths *)

Section Paths.
Context {X : Type} `{External X}.
Local Open Scope string_scope.

Lemma CONFIG_DIR_suffix : ∃ pre, CONFIG_DIR = pre ++ "AmpliFiTeleport".
Proof.
  destruct (NtPathFacts.join_relative APPDATA "AmpliFiTeleport" "A")
    as (pre & Hpre & _); [reflexivity..|].
  by exists pre.
Qed.

(** A name without drive or leading separator is put directly under
    [CONFIG_DIR]. *)
Lemma slot_path name c :
  NtPath.splitdrive name = ("", name) →
  PyStr.first_char name = Some c →
  NtPath.is_sep c = false →
  path_join CONFIG_DIR name = CONFIG_DIR ++ "\" ++ name.
Proof.
  intros Hname Hc Hsep.
  destruct (NtPathFacts.join_relative CONFIG_DIR name c Hname Hc Hsep)
    as (pre & Hpre & Hplain).
  unfold path_join. rewrite Hpre, (Hplain "t"%char); [|  |done|done].
  - by rewrite PyStrFacts.append_assoc.
  - destruct CONFIG_DIR_suffix as [pre' ->].
    change "AmpliFiTeleport" with ("AmpliFiTelepor" ++ "t").
    rewrite <- PyStrFacts.append_assoc.
    by rewrite PyStrFacts.last_char_app.
Qed.

Lemma UUID_FILE_path : UUID_FILE = CONFIG_DIR ++ "\teleport_uuid".
Proof. by apply (slot_path _ "t"). Qed.

Lemma TOKEN_FILE_path : TOKEN_FILE = CONFIG_DIR ++ "\teleport_token_0".
Proof. by apply (slot_path _ "t"). Qed.

Lemma CONFIG_PATH_path : CONFIG_PATH = CONFIG_DIR ++ "\teleport.conf".
Proof. by apply (slot_path _ "t"). Qed.

Lemma slots_distinct :
  UUID_FILE ≠ TOKEN_FILE ∧ UUID_FILE ≠ CONFIG_PATH ∧ TOKEN_FILE ≠ CONFIG_PATH.
Proof.
  rewrite UUID_FILE_path, TOKEN_FILE_path, CONFIG_PATH_path.
  repeat split; intros Heq; apply PyStrFacts.append_inj_r in Heq; discriminate.
Qed.

End Paths.


(** ** The status query *)

Section Status.
Context {X : Type} `{External X}.


(** Every path through the loop body ends in a [return]. *)
Lemma is_tunnel_active_body_returns delay attempt (w : World X) :
  is_tunnel_active_body delay attempt w =
  let '(x', r) := ext_run query_cmd (files w) (ext w) in
  (after_query w x' r, Return (Some (running_reported r))).
Proof.
  unfold is_tunnel_active_body, try_except, bind, subprocess_run, after_query.
  destruct (ext_run query_cmd (files w) (ext w)) as [x' [l|cp]]; simpl.
  - destruct l; simpl; by rewrite <- app_assoc.
  - destruct (returncode cp =? 0)%Z; simpl; [|done].
    destruct (PyStr.contains "running" _); simpl; [done|].
    by destruct (_ || _).
Qed.

Lemma is_tunnel_active_once (retries : Z) delay (w : World X) :
  (0 < retries)%Z →
  is_tunnel_active retries delay w =
  let '(x', r) := ext_run query_cmd (files w) (ext w) in
  (after_query w x' r, Return (running_reported r)).
Proof.
  intros Hpos. unfold is_tunnel_active.
  destruct (Z.to_nat retries) as [|n] eqn:Hn; [lia|].
  simpl. unfold bind at 1 2. rewrite is_tunnel_active_body_returns.
  by destruct (ext_run query_cmd (files w) (ext w)) as [x' r].
Qed.

Lemma is_tunnel_active_none (retries : Z) delay (w : World X) :
  (retries ≤ 0)%Z → is_tunnel_active retries delay w = (w, Return false).
Proof.
  intros Hle. unfold is_tunnel_active.
  by replace (Z.to_nat retries) with 0%nat by lia.
Qed.

(** The status query never raises and never runs out of fuel. *)
Lemma is_tunnel_active_total (retries : Z) delay (w : World X) :
  ∃ w' b, is_tunnel_active retries delay w = (w', Return b)
          ∧ files w' = files w ∧ locked w' = locked w.
Proof.
  destruct (Z_lt_le_dec 0 retries) as [Hpos|Hle].
  - rewrite is_tunnel_active_once by done.
    destruct (ext_run query_cmd (files w) (ext w)) as [x' r]. eauto.
  - rewrite is_tunnel_active_none by done. eauto.
Qed.

End Status.

(** ** Deactivation *)

Section Deactivation.
Context {X : Type} `{External X}.


Lemma polls_exit fuel elapsed n :
  PrimFloat.ltb elapsed max_wait = false → polls (S fuel) elapsed n.
Proof.
  intros Hlt w. exists w, None, []. simpl. rewrite Hlt.
  rewrite app_nil_r. repeat split; auto. lia.
Qed.

Lemma polls_step fuel elapsed n :
  PrimFloat.ltb elapsed max_wait = true →
  polls fuel (elapsed + poll_interval)%float n →
  polls (S fuel) elapsed (S n).
Proof.
  intros Hlt IH w. simpl. rewrite Hlt. unfold bind at 1.
  rewrite is_tunnel_active_once by lia.
  destruct (ext_run query_cmd (files w) (ext w)) as [x' r].
  destruct (running_reported r); simpl.
  - unfold bind, time_sleep, emit. simpl.
    match goal with |- context [poll_loop fuel _ ?w1] =>
      destruct (IH w1) as (w' & r' & evs & -> & Hr & Hf & Hl & Ht & Hc) end.
    exists w', r', (ERun query_cmd :: query_warning r ++ ESleep poll_interval :: evs).
    simpl in *. repeat split; auto.
    + rewrite Ht. by rewrite <- !app_assoc.
    + assert (count is_query (query_warning r ++ ESleep poll_interval :: evs)
              = count is_query evs) as ->; [|lia].
      by destruct r as [[]|].
  - exists (after_query w x' r), (Some (true, "Tunnel deactivated!")),
      (ERun query_cmd :: query_warning r).
    simpl. repeat split; auto.
    assert (count is_query (query_warning r) = 0%nat) as -> by (by destruct r as [[]|]).
    lia.
Qed.

(** The loop as written: it always returns, after at most 11 polls. *)
Lemma poll_loop_total : polls poll_fuel 0.0%float 11.
Proof.
  unfold poll_fuel.
  do 11 (apply polls_step; [reflexivity|]).
  apply polls_exit. reflexivity.
Qed.

Local Arguments poll_loop : simpl never.

(** What [deactivate_tunnel] does, by the answer to the removal
    command. *)
Lemma deactivate_tunnel_cases (w : World X) :
  let '(x', r) := ext_run uninstall_cmd (files w) (ext w) in
  let w1 := after_run w uninstall_cmd x' in
  match r with
  | inl l => deactivate_tunnel w = (w1, Raise (launch_exn l))
  | inr cp =>
      if (returncode cp =? 0)%Z then
        ∃ w' r', poll_loop poll_fuel 0.0%float w1 = (w', Return r')
                 ∧ deactivate_tunnel w = (w', Return (default (true, advisory) r'))
      else
        deactivate_tunnel w =
        (w1, match stderr cp with
             | Utf8 detail =>
                 Return (false,
                         if PyStr.contains "not found" (PyStr.lower detail)
                         then "Tunnel not active."
                         else ("Deactivation failed: " ++ detail)%string)
             | Undecodable reason => Raise (UnicodeDecodeError reason)
             end)
  end.
Proof.
  unfold deactivate_tunnel, try_except, bind, subprocess_run, after_run.
  destruct (ext_run uninstall_cmd (files w) (ext w)) as [x' [l|cp]]; simpl.
  - by destruct l.
  - destruct (returncode cp =? 0)%Z; simpl.
    + match goal with |- context [poll_loop _ _ ?w1] =>
        destruct (poll_loop_total w1) as (w' & r' & evs & Hp & Hr & _) end.
      exists w', r'. split; [done|]. rewrite Hp.
      by destruct Hr as [-> | ->].
    + destruct (stderr cp) as [detail|reason]; simpl; [|done].
      by destruct (PyStr.contains "not found" _).
Qed.

(** Deactivation leaves the files alone, never runs out of fuel, and
    starts by launching the removal command. *)
Lemma deactivate_tunnel_frame (w : World X) :
  ∃ w' r evs, deactivate_tunnel w = (w', r)
              ∧ r ≠ OutOfFuel
              ∧ files w' = files w ∧ locked w' = locked w
              ∧ trace w' = trace w ++ ERun uninstall_cmd :: evs.
Proof.
  pose proof (deactivate_tunnel_cases w) as Hc.
  destruct (ext_run uninstall_cmd (files w) (ext w)) as [x' [l|cp]].
  - rewrite Hc. eexists _, _, []. by repeat split.
  - destruct (returncode cp =? 0)%Z.
    + destruct Hc as (w' & r' & Hp & ->).
      destruct (poll_loop_total (after_run w uninstall_cmd x'))
        as (w'' & r'' & evs & Hp' & _ & Hf & Hl & Ht & _).
      rewrite Hp in Hp'. injection Hp' as <- <-.
      eexists _, _, evs. repeat split; auto.
      rewrite Ht. simpl. by rewrite <- app_assoc.
    + rewrite Hc. eexists _, _, []. split; [reflexivity|].
      split; [by destruct (stderr cp)|]. by repeat split.
Qed.

(** An acknowledged removal always ends in a success outcome, after at
    most 11 status polls. *)
Lemma deactivate_tunnel_acknowledged (w : World X) x' cp :
  ext_run uninstall_cmd (files w) (ext w) = (x', inr cp) →
  returncode cp = 0 →
  ∃ w' msg evs,
    deactivate_tunnel w = (w', Return (true, msg))
    ∧ (msg = "Tunnel deactivated!" ∨ msg = advisory)
    ∧ trace w' = trace w ++ ERun uninstall_cmd :: evs
    ∧ (count is_query evs ≤ 11)%nat.
Proof.
  intros Hrun Hrc. pose proof (deactivate_tunnel_cases w) as Hc.
  rewrite Hrun, Hrc in Hc. simpl in Hc. destruct Hc as (w' & r' & Hp & ->).
  destruct (poll_loop_total (after_run w uninstall_cmd x'))
    as (w'' & r'' & evs & Hp' & Hr & _ & _ & Ht & Hn).
  rewrite Hp in Hp'. injection Hp' as <- <-.
  destruct Hr as [-> | ->]; simpl; eexists _, _, evs; repeat split; eauto;
    rewrite Ht; simpl; by rewrite <- app_assoc.
Qed.

End Deactivation.

(** ** The claims about the status query and about deactivation *)

Section TunnelClaims.
Context {X : Type} `{External X}.

(** C1 (as the code has it): when the removal command fails and its
    standard error decodes to a text that mentions "not found",
    [deactivate_tunnel] raises nothing and returns the pair
    [(False, "Tunnel not active.")]: the dedicated message, under a
    success flag that is [False].  When the standard error cannot be
    decoded, the [UnicodeDecodeError] raised in the handler escapes. *)
Theorem deactivate_tunnel_not_installed (w : World X) x' cp :
  ext_run uninstall_cmd (files w) (ext w) = (x', inr cp) →
  returncode cp ≠ 0 →
  deactivate_tunnel w
  = (after_run w uninstall_cmd x',
     match stderr cp with
     | Utf8 detail =>
         if PyStr.contains "not found" (PyStr.lower detail)
         then Return (false, "Tunnel not active.")
         else Return (false, ("Deactivation failed: " ++ detail)%string)
     | Undecodable reason => Raise (UnicodeDecodeError reason)
     end).
Proof.
  intros Hrun Hrc. pose proof (deactivate_tunnel_cases w) as Hc.
  rewrite Hrun in Hc. simpl in Hc.
  destruct (returncode cp =? 0)%Z eqn:Hz; [lia|].
  rewrite Hc. destruct (stderr cp) as [detail|reason]; [|done].
  by destruct (PyStr.contains "not found" _).
Qed.

(** C2: the first thing [on_disconnect] does is launch the removal
    command.  The guard [if not is_tunnel_active] tests the function
    object, so no status query precedes the removal, and the removal is
    issued whatever the tunnel's state. *)
Theorem on_disconnect_removal_first (w : World X) :
  ∃ w' r evs, on_disconnect w = (w', r)
              ∧ trace w' = trace w ++ ERun uninstall_cmd :: evs.
Proof.
  unfold on_disconnect. simpl. unfold bind at 1.
  destruct (deactivate_tunnel_frame w) as (w1 & r1 & evs & -> & _ & _ & _ & Ht).
  destruct r1 as [[ok msg]|e|].
  - unfold showinfo, emit, call, bind. simpl.
    match goal with |- context [ext_showinfo ?t ?m ?x] =>
      destruct (ext_showinfo t m x) as [x2 [e|[]]] end; simpl;
      eexists _, _, (evs ++ [_]); (split; [done|]); simpl;
      rewrite Ht; by rewrite <- app_assoc.
  - eexists _, _, evs. by split.
  - eexists _, _, evs. by split.
Qed.

(** C3 (as the code has it): with at least one attempt allowed, a single
    status query decides the answer, which has two values.  It is [True]
    exactly when the command exits with code 0 and its lower-cased
    output contains "running"; any other completed answer (stopped, not
    found, pending) gives [False]; a timeout, a missing binary or any
    other launch error also gives [False], after a warning is logged.
    Nothing is raised. *)
Theorem is_tunnel_active_classifies (retries : Z) (delay : float) (w : World X) :
  (0 < retries)%Z →
  ∃ w', is_tunnel_active retries delay w =
        (w', Return
               match (ext_run query_cmd (files w) (ext w)).2 with
               | inr cp => (returncode cp =? 0)%Z
                           && PyStr.contains "running" (PyStr.lower (stdout cp))
               | inl _ => false
               end)
        ∧ trace w' =
          trace w ++
          match (ext_run query_cmd (files w) (ext w)).2 with
          | inr _ => [ERun query_cmd]
          | inl LaunchTimeout | inl LaunchNotFound =>
              [ERun query_cmd; EWarning "Could not query service"]
          | inl (LaunchOSError m) =>
              [ERun query_cmd; EWarning ("Tunnel check failed: " ++ m)%string]
          end.
Proof.
  intros Hpos. rewrite is_tunnel_active_once by done.
  destruct (ext_run query_cmd (files w) (ext w)) as [x' r].
  eexists. split; [done|]. by destruct r as [[]|].
Qed.

(** C4: [is_tunnel_active retries delay] always returns.  It launches
    at most [retries] status queries; it sleeps only for [delay], at
    most once per query and at least once between two queries; and it
    answers [False] unless a query was made. *)
Theorem is_tunnel_active_bounded (retries : Z) (delay : float) (w : World X) :
  ∃ w' b evs,
    is_tunnel_active retries delay w = (w', Return b)
    ∧ trace w' = trace w ++ evs
    ∧ (count is_query evs ≤ Z.to_nat retries)%nat
    ∧ Forall (λ s, s = delay) (sleeps evs)
    ∧ (count is_query evs - 1 ≤ length (sleeps evs) ≤ count is_query evs)%nat
    ∧ (b = false ∨ (0 < count is_query evs)%nat).
Proof.
  destruct (Z_lt_le_dec 0 retries) as [Hpos|Hle].
  - rewrite is_tunnel_active_once by done.
    destruct (ext_run query_cmd (files w) (ext w)) as [x' r].
    eexists _, _, (ERun query_cmd :: query_warning r).
    split; [done|]. split; [done|].
    assert (count is_query (query_warning r) = 0%nat) as Hq by (by destruct r as [[]|]).
    assert (sleeps (query_warning r) = []) as Hs by (by destruct r as [[]|]).
    simpl. rewrite Hq, Hs. simpl. repeat split; auto with lia.
  - rewrite is_tunnel_active_none by done.
    exists w, false, []. rewrite app_nil_r. simpl. repeat split; auto with lia.
Qed.

(** The loop never retries: at most one query, and no sleep at all. *)
Lemma is_tunnel_active_single_attempt (retries : Z) (delay : float) (w : World X) :
  ∃ w' b evs,
    is_tunnel_active retries delay w = (w', Return b)
    ∧ trace w' = trace w ++ evs
    ∧ (count is_query evs ≤ 1)%nat
    ∧ sleeps evs = [].
Proof.
  destruct (Z_lt_le_dec 0 retries) as [Hpos|Hle].
  - rewrite is_tunnel_active_once by done.
    destruct (ext_run query_cmd (files w) (ext w)) as [x' r].
    eexists _, _, (ERun query_cmd :: query_warning r).
    split; [done|]. split; [done|]. by destruct r as [[]|].
  - rewrite is_tunnel_active_none by done.
    exists w, false, []. rewrite app_nil_r. simpl. auto.
Qed.

End TunnelClaims.

(** *** On the simulated host *)

(** C1, witness: no service installed. *)
Lemma deactivate_tunnel_not_installed_witness :
  ∃ w', @deactivate_tunnel _ (Sim.external Sim.healthy) (Sim.world [] [] None)
        = (w', Return (false, "Tunnel not active.")).
Proof.
  eexists.
  rewrite (@deactivate_tunnel_not_installed _ (Sim.external Sim.healthy)
             (Sim.world [] [] None)
             {| Sim.service := None; Sim.lingering := 0 |}
             {| returncode := 1; stdout := "";
                stderr := Utf8 "Uninstall failed: service not found" |});
    [reflexivity | reflexivity | simpl; lia].
Defined.

(** C1, as the claim states it, fails: with no service installed the
    outcome of [deactivate_tunnel] carries the failure flag. *)
Lemma deactivate_tunnel_not_installed_is_failure :
  succeeded (@deactivate_tunnel _ (Sim.external Sim.healthy) (Sim.world [] [] None)).2
  ≠ true.
Proof. vm_compute. discriminate. Qed.

(** C2 on a host without a tunnel: the removal command is launched, no
    status query is made, the guard message never appears. *)
Example on_disconnect_without_tunnel :
  let '(w', r) := @on_disconnect _ (Sim.external Sim.healthy) (Sim.world [] [] None) in
  r = Return (false, "Tunnel not active.")
  ∧ trace w' = [ERun uninstall_cmd; EShowInfo "Tunnel" "Error: Tunnel not active."].
Proof. vm_compute. split; reflexivity. Qed.

(** C3, witness: a running service at the first and only query. *)
Lemma is_tunnel_active_classifies_witness :
  ∃ w', @is_tunnel_active _ (Sim.external Sim.healthy) 3 1.0%float
          (Sim.world [] [] (Some "[Interface]")) = (w', Return true)
        ∧ trace w' = [ERun query_cmd].
Proof.
  apply (@is_tunnel_active_classifies _ (Sim.external Sim.healthy) 3 1.0%float
           (Sim.world [] [] (Some "[Interface]"))).
  lia.
Defined.

(** C3, as the claim states it, fails: a query that times out and a
    query that is told the service does not exist get the same answer. *)
Lemma is_tunnel_active_timeout_same_as_missing :
  (@is_tunnel_active _ (Sim.external Sim.sc_times_out) 3 1.0%float (Sim.world [] [] None)).2
  = Return false
  ∧ (@is_tunnel_active _ (Sim.external Sim.healthy) 3 1.0%float (Sim.world [] [] None)).2
    = Return false.
Proof. split; vm_compute; reflexivity. Qed.

(** Ten additions of 0.8 in binary64 stay just below 8.0, so the loop
    condition holds an eleventh time. *)
Example elapsed_after_ten_polls :
  PrimFloat.ltb (elapsed_after 10) max_wait = true
  ∧ PrimFloat.ltb (elapsed_after 11) max_wait = false.
Proof. split; reflexivity. Qed.

(** C5 at the failing input: the removal is acknowledged and the service
    keeps reporting RUNNING.  The loop polls 11 times and sleeps 11
    times before it gives up with the advisory success. *)
Theorem deactivate_tunnel_polls_eleven_times :
  let '(w', r) := @deactivate_tunnel _ (Sim.external Sim.slow_to_stop)
                    (Sim.world [] [] (Some "[Interface]")) in
  r = Return (true, advisory)
  ∧ count is_query (trace w') = 11%nat
  ∧ length (sleeps (trace w')) = 11%nat.
Proof. vm_compute. repeat split; reflexivity. Qed.

(** ** A small program logic *)

Section Logic.
Context {X : Type} `{External X}.
Implicit Types (I : World X → Prop) (P : gmap string string → gset string → Prop).

Lemma preserves_ret {A} I (a : A) : preserves (X:=X) I (ret a).
Proof. by intros w. Qed.

Lemma preserves_raise {A} I e : preserves (X:=X) I (raise (A:=A) e).
Proof. by intros w. Qed.

Lemma preserves_bind {A B} I (m : M X A) (k : A → M X B) :
  preserves I m → (∀ a, preserves I (k a)) → preserves I (bind m k).
Proof.
  intros Hm Hk w Hw. unfold bind. specialize (Hm w Hw).
  destruct (m w) as [w1 [a|e|]]; simpl in *; auto. by apply Hk.
Qed.

Lemma preserves_try {A} I (m : M X A) h :
  preserves I m → (∀ e k, h e = Some k → preserves I k) →
  preserves I (try_except m h).
Proof.
  intros Hm Hh w Hw. unfold try_except. specialize (Hm w Hw).
  destruct (m w) as [w1 [a|e|]]; simpl in *; auto.
  destruct (h e) as [k|] eqn:He; simpl; auto. by eapply Hh.
Qed.

Lemma preserves_emit P e : preserves (X:=X) (on_files P) (emit e).
Proof. by intros w. Qed.

Lemma preserves_call {A} P (f : X → X * (exn + A)) : preserves (X:=X) (on_files P) (call f).
Proof. intros w Hw. unfold call. by destruct (f (ext w)). Qed.

Lemma preserves_subprocess_run P args check :
  preserves (X:=X) (on_files P) (subprocess_run args check).
Proof.
  intros w Hw. unfold subprocess_run.
  destruct (ext_run args (files w) (ext w)) as [x' [l|cp]]; simpl; [done|].
  by destruct (check && _).
Qed.

Lemma preserves_path_exists P p : preserves (X:=X) (on_files P) (path_exists p).
Proof. by intros w. Qed.

Lemma preserves_read_text P p : preserves (X:=X) (on_files P) (read_text p).
Proof. intros w Hw. unfold read_text. by destruct (files w !! p). Qed.

Lemma preserves_write_text P p s :
  (∀ fs lk c, P fs lk → p ∉ lk → P (<[p := c]> fs) lk) →
  preserves (X:=X) (on_files P) (write_text p s).
Proof.
  intros HP w Hw. unfold write_text. case_decide; simpl; [done|].
  destruct (ext_write p s (ext w)) as [x' [[e n]|[]]]; by apply HP.
Qed.

Lemma preserves_os_remove P p :
  (∀ fs lk, P fs lk → p ∉ lk → P (delete p fs) lk) →
  preserves (X:=X) (on_files P) (os_remove p).
Proof.
  intros HP w Hw. unfold os_remove.
  destruct (files w !! p); [|done]. case_decide; simpl; [done|]. by apply HP.
Qed.

Lemma preserves_for_range {A} I n attempt (body : nat → M X (option A)) :
  (∀ a, preserves I (body a)) → preserves I (for_range n attempt body).
Proof.
  intros Hb. revert attempt. induction n as [|n IH]; intros attempt; simpl.
  - apply preserves_ret.
  - apply preserves_bind; [done|]. intros [a|]; [apply preserves_ret | apply IH].
Qed.

Lemma fuel_free_ret {A} (a : A) : fuel_free (X:=X) (ret a).
Proof. by intros w. Qed.

Lemma fuel_free_raise {A} e : fuel_free (X:=X) (raise (A:=A) e).
Proof. by intros w. Qed.

Lemma fuel_free_bind {A B} (m : M X A) (k : A → M X B) :
  fuel_free m → (∀ a, fuel_free (k a)) → fuel_free (bind m k).
Proof.
  intros Hm Hk w. unfold bind. specialize (Hm w).
  destruct (m w) as [w1 [a|e|]]; simpl in *; auto. apply Hk.
Qed.

Lemma fuel_free_try {A} (m : M X A) h :
  fuel_free m → (∀ e k, h e = Some k → fuel_free k) → fuel_free (try_except m h).
Proof.
  intros Hm Hh w. unfold try_except. specialize (Hm w).
  destruct (m w) as [w1 [a|e|]]; simpl in *; auto.
  destruct (h e) as [k|] eqn:He; simpl; auto. by eapply Hh.
Qed.

Lemma fuel_free_emit e : fuel_free (X:=X) (emit e).
Proof. by intros w. Qed.

Lemma fuel_free_call {A} (f : X → X * (exn + A)) : fuel_free (call f).
Proof. intros w. unfold call. by destruct (f (ext w)) as [x' [e|a]]. Qed.

Lemma fuel_free_subprocess_run args check : fuel_free (subprocess_run args check).
Proof.
  intros w. unfold subprocess_run.
  destruct (ext_run args (files w) (ext w)) as [x' [l|cp]]; simpl; [done|].
  by destruct (check && _).
Qed.

Lemma fuel_free_path_exists p : fuel_free (X:=X) (path_exists p).
Proof. by intros w. Qed.

Lemma fuel_free_read_text p : fuel_free (X:=X) (read_text p).
Proof. intros w. unfold read_text. by destruct (files w !! p). Qed.

Lemma fuel_free_write_text p s : fuel_free (X:=X) (write_text p s).
Proof.
  intros w. unfold write_text. case_decide; [done|].
  by destruct (ext_write p s (ext w)) as [x' [[e n]|[]]].
Qed.

Lemma fuel_free_bytes_decode b : fuel_free (X:=X) (bytes_decode b).
Proof. destruct b; by intros w. Qed.

Lemma preserves_bytes_decode I b : preserves (X:=X) I (bytes_decode b).
Proof. destruct b; by intros w. Qed.

Lemma fuel_free_os_remove p : fuel_free (X:=X) (os_remove p).
Proof.
  intros w. unfold os_remove. destruct (files w !! p); [|done]. by case_decide.
Qed.

(** A handler that catches every exception and returns makes a
    fuel-free block total. *)
Lemma total_try_catch_all {A} (m : M X A) (f : exn → A) :
  fuel_free m → total (try_except m (λ e, Some (ret (f e)))).
Proof.
  intros Hm w. unfold try_except. specialize (Hm w).
  destruct (m w) as [w1 [a|e|]]; simpl in *; eauto. done.
Qed.

End Logic.

Create HintDb preserve.
Create HintDb fuel.

#[export] Hint Resolve preserves_ret preserves_raise preserves_emit preserves_call
  preserves_bytes_decode
  preserves_subprocess_run preserves_path_exists preserves_read_text
  preserves_for_range : preserve.
#[export] Hint Resolve fuel_free_ret fuel_free_raise fuel_free_emit fuel_free_call
  fuel_free_bytes_decode
  fuel_free_subprocess_run fuel_free_path_exists fuel_free_read_text
  fuel_free_write_text fuel_free_os_remove : fuel.

(** Break a goal about a compound computation into goals about its
    parts, along binds, handlers and branches. *)
Ltac split_computation leaf rule_bind rule_try :=
  repeat first
    [ solve [leaf]
    | apply rule_bind; [|intros ?]
    | apply rule_try; [|intros ? ? ?]
    | match goal with
      | |- _ (if ?b then _ else _) => destruct b
      | |- _ (let '(_, _) := ?p in _) => destruct p
      | |- _ (match ?x with _ => _ end) => destruct x
      | H : Some _ = Some _ |- _ => injection H as <-
      | H : None = Some _ |- _ => discriminate H
      | H : match ?e with _ => _ end = Some _ |- _ => destruct e
      end ].

(** Unfold the library calls down to functions on worlds. *)
Ltac prims :=
  unfold showinfo, showerror, askstring, askyesno, tk_Tk, root_withdraw,
    root_destroy, generate_client_hint,
    get_device_token, connect_device, time_sleep, logging_warning,
    subprocess_run, path_exists, read_text, write_text, os_remove, bytes_decode,
    try_except, call, emit, raise, ret, bind in *.

(** Run a computation symbolically, splitting on every answer of the
    outside world that it inspects. *)
Ltac exec_step :=
  match goal with
  | H : ?a = _ |- context [?a] => rewrite H
  | |- context [bool_decide (is_Some None)] =>
      rewrite bool_decide_eq_false_2 by (by intros [? ?])
  | |- context [bool_decide (is_Some (Some ?v))] =>
      rewrite bool_decide_eq_true_2 by eauto
  | |- context [<[?p:=_]> _ !! ?p] => rewrite lookup_insert_eq
  | |- context [<[?p:=_]> _ !! ?q] => rewrite lookup_insert_ne by done
  | |- context [delete ?p _ !! ?p] => rewrite lookup_delete_eq
  | |- context [delete ?p _ !! ?q] => rewrite lookup_delete_ne by done
  | |- context [files ?w !! ?p] => is_var w; destruct (files w !! p) eqn:?
  | |- context [decide (?p ∈ locked ?w)] =>
      is_var w; destruct (decide (p ∈ locked w)); [try done|try done]
  | |- context [ext_run ?a ?b ?c] => destruct (ext_run a b c) as [? [?|?]] eqn:?
  | |- context [ext_generate_client_hint ?x] =>
      destruct (ext_generate_client_hint x) as [? [?|?]] eqn:?
  | |- context [ext_get_device_token ?a ?b ?x] =>
      destruct (ext_get_device_token a b x) as [? [?|?]] eqn:?
  | |- context [ext_connect_device ?a ?x] =>
      destruct (ext_connect_device a x) as [? [?|?]] eqn:?
  | |- context [ext_write ?a ?b ?x] =>
      destruct (ext_write a b x) as [? [[? ?]|?]] eqn:?
  | |- context [ext_Tk ?x] => destruct (ext_Tk x) as [? [?|?]] eqn:?
  | |- context [ext_withdraw ?x] => destruct (ext_withdraw x) as [? [?|?]] eqn:?
  | |- context [ext_destroy ?x] => destruct (ext_destroy x) as [? [?|?]] eqn:?
  | |- context [ext_askstring ?a ?b ?x] =>
      destruct (ext_askstring a b x) as [? [?|?]] eqn:?
  | |- context [ext_askyesno ?a ?b ?x] =>
      destruct (ext_askyesno a b x) as [? [?|?]] eqn:?
  | |- context [ext_showinfo ?a ?b ?x] =>
      destruct (ext_showinfo a b x) as [? [?|?]] eqn:?
  | |- context [ext_showerror ?a ?b ?x] =>
      destruct (ext_showerror a b x) as [? [?|?]] eqn:?
  | |- context [(?a =? ?b)%Z] => destruct (a =? b)%Z eqn:?
  | |- context [match ?x with _ => _ end] => is_var x; destruct x
  end.

Ltac exec := repeat (simpl in *; exec_step).

(** ** What each function leaves alone *)

Section Frames.
Context {X : Type} `{External X}.
Implicit Types (P : gmap string string → gset string → Prop).

Local Abbreviation has_identity v := (on_files (λ fs _, fs !! UUID_FILE = Some v)).

Ltac frame :=
  split_computation ltac:(auto with preserve) (@preserves_bind X) (@preserves_try X).
Ltac fuel :=
  split_computation ltac:(auto with fuel) (@fuel_free_bind X) (@fuel_free_try X).

Lemma preserves_generate_client_hint P : preserves (X:=X) (on_files P) generate_client_hint.
Proof. unfold generate_client_hint. frame. Qed.

Lemma preserves_get_device_token P hint pin :
  preserves (X:=X) (on_files P) (get_device_token hint pin).
Proof. unfold get_device_token. frame. Qed.

Lemma preserves_connect_device P token : preserves (X:=X) (on_files P) (connect_device token).
Proof. unfold connect_device. frame. Qed.

Lemma preserves_tk_Tk P : preserves (X:=X) (on_files P) tk_Tk.
Proof. unfold tk_Tk. frame. Qed.

Lemma preserves_root_withdraw P : preserves (X:=X) (on_files P) root_withdraw.
Proof. unfold root_withdraw. frame. Qed.

Lemma preserves_root_destroy P : preserves (X:=X) (on_files P) root_destroy.
Proof. unfold root_destroy. frame. Qed.

Lemma preserves_askstring P t m : preserves (X:=X) (on_files P) (askstring t m).
Proof. unfold askstring. frame. Qed.

Lemma preserves_askyesno P t m : preserves (X:=X) (on_files P) (askyesno t m).
Proof. unfold askyesno. frame. Qed.

Lemma preserves_showinfo P t m : preserves (X:=X) (on_files P) (showinfo t m).
Proof. unfold showinfo. frame. Qed.

Lemma preserves_showerror P t m : preserves (X:=X) (on_files P) (showerror t m).
Proof. unfold showerror. frame. Qed.

Lemma preserves_is_tunnel_active P retries delay :
  preserves (X:=X) (on_files P) (is_tunnel_active retries delay).
Proof.
  intros w Hw.
  destruct (is_tunnel_active_total retries delay w) as (w' & b & -> & Hf & Hl).
  unfold on_files in *. simpl. by rewrite Hf, Hl.
Qed.

Lemma preserves_deactivate_tunnel P : preserves (X:=X) (on_files P) deactivate_tunnel.
Proof.
  intros w Hw.
  destruct (deactivate_tunnel_frame w) as (w' & r & evs & -> & _ & Hf & Hl & _).
  unfold on_files in *. simpl. by rewrite Hf, Hl.
Qed.

Lemma preserves_activate_tunnel P : preserves (X:=X) (on_files P) activate_tunnel.
Proof. unfold activate_tunnel. frame. Qed.

Hint Resolve preserves_generate_client_hint preserves_get_device_token
  preserves_connect_device preserves_tk_Tk preserves_root_withdraw
  preserves_root_destroy preserves_askstring preserves_askyesno
  preserves_showinfo preserves_showerror preserves_is_tunnel_active
  preserves_deactivate_tunnel preserves_activate_tunnel : preserve.

(** Writing another slot leaves the identity slot alone. *)
Lemma write_keeps_identity v p s :
  p ≠ UUID_FILE → preserves (X:=X) (has_identity v) (write_text p s).
Proof.
  intros Hne. apply preserves_write_text. intros fs lk c Hv _.
  by rewrite lookup_insert_ne.
Qed.

(** Where the identity exists it is read, and the branch that would
    write it is not taken. *)
Lemma load_or_create_keeps_identity {A} v (load create : M X A) :
  preserves (X:=X) (has_identity v) load →
  preserves (X:=X) (has_identity v)
    (bind (path_exists UUID_FILE) (λ present : bool, if present then load else create)).
Proof.
  intros Hload w Hw. unfold bind, path_exists.
  rewrite bool_decide_eq_true_2 by (rewrite Hw; eauto). by apply Hload.
Qed.

Lemma generate_config_keeps_identity v pin :
  preserves (X:=X) (has_identity v) (generate_config pin).
Proof.
  destruct slots_distinct as (Hut & Huc & Htc).
  unfold generate_config.
  apply preserves_try; [|intros e k [= <-]; apply preserves_ret].
  apply preserves_bind.
  - destruct (truthy pin).
    + apply preserves_bind; [apply load_or_create_keeps_identity|intros hint]; frame.
      by apply write_keeps_identity.
    + frame.
  - intros token. frame. by apply write_keeps_identity.
Qed.

Hint Resolve generate_config_keeps_identity : preserve.

Lemma show_pin_dialog_keeps_identity v and_activate :
  preserves (X:=X) (has_identity v) (show_pin_dialog and_activate).
Proof. unfold show_pin_dialog. frame. Qed.

Lemma on_refresh_config_keeps_identity v : preserves (X:=X) (has_identity v) on_refresh_config.
Proof. unfold on_refresh_config. frame. Qed.

Lemma on_connect_keeps_identity v : preserves (X:=X) (has_identity v) on_connect.
Proof.
  unfold on_connect.
  apply preserves_bind; [frame|]. intros present.
  destruct (negb present); [|apply on_refresh_config_keeps_identity].
  apply preserves_try; [|intros e k [= <-]; apply preserves_ret].
  apply preserves_bind; [apply show_pin_dialog_keeps_identity|].
  intros _. apply preserves_ret.
Qed.

Lemma on_disconnect_keeps_identity v : preserves (X:=X) (has_identity v) on_disconnect.
Proof. unfold on_disconnect. simpl. frame. Qed.

(** No loop, no fuel. *)
Lemma fuel_free_generate_config pin : fuel_free (generate_config pin).
Proof.
  unfold generate_config, generate_client_hint, get_device_token, connect_device. fuel.
Qed.

Lemma fuel_free_activate_tunnel : fuel_free activate_tunnel.
Proof. unfold activate_tunnel. fuel. Qed.

Lemma fuel_free_show_pin_dialog and_activate : fuel_free (show_pin_dialog and_activate).
Proof.
  pose proof fuel_free_generate_config. pose proof fuel_free_activate_tunnel.
  unfold show_pin_dialog, tk_Tk, root_withdraw, root_destroy, askstring,
    showinfo, showerror. fuel.
Qed.

(** [generate_config] catches whatever is raised inside it. *)
Lemma generate_config_total pin : total (generate_config pin).
Proof.
  unfold generate_config. apply total_try_catch_all.
  unfold generate_client_hint, get_device_token, connect_device. fuel.
Qed.

End Frames.

(** ** The claims about the persisted slots *)

Section SlotClaims.
Context {X : Type} `{External X}.

(** The load path hands [connect_device] the stored token, decoded and
    stripped. *)
Lemma generate_config_load (w : World X) c :
  files w !! TOKEN_FILE = Some c →
  ∃ w' r, generate_config None w = (w', r)
          ∧ trace w' = trace w ++ [ERemote "connect_device" [PyStr.strip (TextIO.decode c)]].
Proof.
  intros Htok. unfold generate_config. prims. exec; eauto.
Qed.

(** Whenever the issue path reaches [connect_device], the token it
    passes is the one it has just written to the token slot. *)
Lemma generate_config_issue (w : World X) pin :
  truthy pin = true →
  ∃ w1 r1 evs1, generate_config pin w = (w1, r1)
    ∧ trace w1 = trace w ++ evs1
    ∧ ∀ t, remote_args "connect_device" evs1 = [[t]] →
           files w1 !! TOKEN_FILE = Some (TextIO.encode t).
Proof.
  intros Hpin. destruct slots_distinct as (Hut & Huc & Htc).
  unfold generate_config. rewrite Hpin. prims. exec.
  all: eexists _, _, _; (split; [reflexivity|]); simpl;
    rewrite <- ?app_assoc; (split; [reflexivity|]); simpl;
    intros t Ht; simplify_eq; by simplify_map_eq.
Qed.



End SlotClaims.

(** *** Reset *)

Section Reset.
Context {X : Type} `{External X}.

Lemma bind_return {A B} (m : M X A) (k : A → M X B) w w1 a :
  m w = (w1, Return a) → bind m k w = k a w1.
Proof. intros Hm. unfold bind. by rewrite Hm. Qed.

(** When the removal command can be launched, and either succeeds or
    fails with a standard error that can be decoded, deactivation
    returns. *)
Lemma deactivate_tunnel_completes (w : World X) x' cp :
  ext_run uninstall_cmd (files w) (ext w) = (x', inr cp) →
  returncode cp = 0 ∨ (∃ detail, stderr cp = Utf8 detail) →
  ∃ w' r, deactivate_tunnel w = (w', Return r)
          ∧ files w' = files w ∧ locked w' = locked w.
Proof.
  intros Hrun Hdec. pose proof (deactivate_tunnel_cases w) as Hc. rewrite Hrun in Hc.
  destruct (deactivate_tunnel_frame w) as (w' & r & evs & Hd & _ & Hf & Hl & _).
  simpl in Hc. destruct (returncode cp =? 0)%Z eqn:Hz.
  - destruct Hc as (w2 & r2 & _ & Hd'). rewrite Hd' in Hd. simplify_eq. eauto.
  - destruct Hdec as [Hrc|[detail Hdetail]]; [lia|].
    rewrite Hdetail in Hc. rewrite Hc in Hd. simplify_eq. eauto.
Qed.


End Reset.

(** *** Activation *)

Section Idempotence.
Context {X : Type} `{External X}.

(** What is known of the service manager: [installed x] is the
    configuration of the tunnel service it holds, if any; the removal
    command always completes and leaves no service; the install command,
    when no service is held, installs a configuration it accepts and
    nothing otherwise. *)
Variable installed : X → option string.
Variable accepts : string → bool.

Hypothesis uninstall_clears :
  ∀ fs x, ∃ x' cp, ext_run uninstall_cmd fs x = (x', inr cp) ∧ installed x' = None.

Hypothesis install_fresh :
  ∀ fs x c, installed x = None → fs !! CONFIG_PATH = Some c →
    ∃ x' cp, ext_run install_cmd fs x = (x', inr cp)
             ∧ if accepts c then returncode cp = 0 ∧ installed x' = Some c
               else returncode cp ≠ 0 ∧ installed x' = None.

Lemma activate_tunnel_once (w : World X) c :
  files w !! CONFIG_PATH = Some c →
  ∃ w1 r1, activate_tunnel w = (w1, r1)
           ∧ succeeded r1 = accepts c
           ∧ files w1 = files w
           ∧ installed (ext w1) = (if accepts c then Some c else None).
Proof.
  intros Hc. unfold activate_tunnel. prims. simpl. rewrite Hc.
  rewrite bool_decide_eq_true_2 by eauto. simpl.
  destruct (uninstall_clears (files w) (ext w)) as (x1 & cp1 & -> & Hx1). simpl.
  destruct (install_fresh (files w) x1 c Hx1 Hc) as (x2 & cp2 & -> & Hx2). simpl.
  destruct (accepts c).
  - destruct Hx2 as [-> Hx2]. simpl. by eexists _, _.
  - destruct Hx2 as [Hrc Hx2].
    destruct (returncode cp2 =? 0)%Z eqn:Hz; [lia|]. simpl.
    destruct (stderr cp2); simpl; by eexists _, _.
Qed.

(** C7: with the config slot holding [c], activating twice in a row
    leaves the service manager holding what one activation leaves, and
    the second activation succeeds exactly when the first does: it is
    never turned down for the service the first one installed. *)
Theorem activate_tunnel_idempotent (w : World X) c :
  files w !! CONFIG_PATH = Some c →
  ∃ w1 r1 w2 r2,
    activate_tunnel w = (w1, r1) ∧ activate_tunnel w1 = (w2, r2)
    ∧ installed (ext w2) = installed (ext w1)
    ∧ installed (ext w1) = (if accepts c then Some c else None)
    ∧ succeeded r1 = accepts c
    ∧ succeeded r2 = succeeded r1.
Proof.
  intros Hc.
  destruct (activate_tunnel_once w c Hc) as (w1 & r1 & H1 & Hs1 & Hf1 & Hi1).
  assert (files w1 !! CONFIG_PATH = Some c) as Hc1 by (by rewrite Hf1).
  destruct (activate_tunnel_once w1 c Hc1) as (w2 & r2 & H2 & Hs2 & Hf2 & Hi2).
  exists w1, r1, w2, r2.
  repeat split; try done; [by rewrite Hi1, Hi2 | by rewrite Hs1, Hs2].
Qed.

End Idempotence.

(** *** First connection *)

Section Connect.
Context {X : Type} `{External X}.

(** [generate_config] catches whatever is raised inside it.  On success
    the config slot holds the new config; on failure it is as it was, or
    holds what a failed write of the new config left there. *)
Lemma generate_config_returns (pin : option string) (w : World X) :
  ∃ w' ok msg,
    generate_config pin w = (w', Return (ok, msg))
    ∧ if ok then files w' !! CONFIG_PATH = Some (TextIO.encode msg)
      else files w' !! CONFIG_PATH = files w !! CONFIG_PATH
           ∨ ∃ n cfg, files w' !! CONFIG_PATH = Some (torn n cfg).
Proof.
  destruct slots_distinct as (Hut & Huc & Htc).
  unfold generate_config. destruct (truthy pin); prims; exec.
  all: eexists _, _, _; (split; [reflexivity|]); simpl;
    first [ by simplify_map_eq | left; by simplify_map_eq
          | right; eexists _, _; by simplify_map_eq ].
Qed.

(** What [activate_tunnel] does once the config slot exists, by the
    answers to its two commands. *)
Lemma activate_tunnel_cases (w : World X) c :
  files w !! CONFIG_PATH = Some c →
  let '(x1, r1) := ext_run uninstall_cmd (files w) (ext w) in
  let w1 := after_run w uninstall_cmd x1 in
  match r1 with
  | inl l => activate_tunnel w = (w1, Raise (launch_exn l))
  | inr _ =>
      let '(x2, r2) := ext_run install_cmd (files w) x1 in
      let w2 := after_run w1 install_cmd x2 in
      match r2 with
      | inl l => activate_tunnel w = (w2, Raise (launch_exn l))
      | inr cp =>
          activate_tunnel w
          = (w2, if (returncode cp =? 0)%Z then Return (true, "Tunnel activated!")
                 else match stderr cp with
                      | Utf8 detail =>
                          Return (false, ("Activation failed: " ++ detail)%string)
                      | Undecodable reason => Raise (UnicodeDecodeError reason)
                      end)
      end
  end.
Proof.
  intros Hc. unfold activate_tunnel, after_run. prims. simpl. rewrite Hc.
  rewrite bool_decide_eq_true_2 by eauto. simpl.
  destruct (ext_run uninstall_cmd (files w) (ext w)) as [x1 [l|cp1]]; simpl.
  - by destruct l.
  - destruct (ext_run install_cmd (files w) x1) as [x2 [l|cp2]]; simpl.
    + by destruct l.
    + destruct (returncode cp2 =? 0)%Z; simpl; [done|]. by destruct (stderr cp2).
Qed.

(** [show_pin_dialog] up to the point where the PIN is looked at. *)
Lemma show_pin_dialog_prompted (and_activate : bool) (w : World X) x1 x2 x3 pin x4 :
  ext_Tk (ext w) = (x1, inr tt) →
  ext_withdraw x1 = (x2, inr tt) →
  ext_askstring "AmpliFi Teleport" "Enter your Teleport PIN (e.g., AB123):" x2
  = (x3, inr pin) →
  ext_destroy x3 = (x4, inr tt) →
  show_pin_dialog and_activate w
  = (if truthy pin then
       bind (generate_config pin)
         (λ '(success, msg),
            if success then
              if and_activate then
                bind activate_tunnel
                  (λ '(act_success, act_msg),
                     showinfo "Result"
                       (if act_success then act_msg else "Error: " ++ act_msg)%string)
              else showinfo "Result" "Config generated successfully!"
            else showerror "Error" ("Generation failed: " ++ msg)%string)
     else ret tt) (prompted w x4).
Proof.
  intros Htk Hwd Hask Hds.
  unfold show_pin_dialog, tk_Tk, root_withdraw, root_destroy, askstring, prompted.
  unfold call at 1 2 3 4. unfold emit at 1. unfold bind at 1 2 3 4 5. simpl.
  rewrite Htk. simpl. rewrite Hwd. simpl. rewrite Hask. simpl. by rewrite Hds.
Qed.

(** With no token persisted, [on_connect] is [show_pin_dialog] with
    whatever it raises turned into the failure pair. *)
Lemma on_connect_prompted (w : World X) :
  path_exists TOKEN_FILE w = (w, Return false) →
  on_connect w
  = (let '(w', r) := show_pin_dialog true w in
     match r with
     | Return _ => (w', Return (Some connected))
     | Raise _ => (w', Return (Some not_connected))
     | OutOfFuel => (w', OutOfFuel)
     end).
Proof.
  intros Hex. unfold on_connect. rewrite (bind_return _ _ _ _ _ Hex). cbn [negb].
  unfold try_except, bind. by destruct (show_pin_dialog true w) as [w' [[]|e|]].
Qed.

(** C10 (as the code has it): with no token persisted and no dialog
    call raising, [on_connect] goes through the PIN prompt and then:
    - a cancelled or empty PIN ends the flow, and the success pair is
      returned;
    - a generation that fails (token issuance or config exchange) is
      shown as "Generation failed: ...", and the success pair is
      returned;
    - an install command that exits with code 0, or with another code
      and a standard error that can be decoded, is shown as "Tunnel
      activated!" or "Error: Activation failed: ...", and the success
      pair is returned;
    - an activation that raises, because [wireguard.exe] cannot be
      launched or its standard error cannot be decoded, shows nothing
      and makes [on_connect] return the failure pair. *)
Theorem on_connect_without_token (w : World X) :
  files w !! TOKEN_FILE = None →
  dialogs_never_raise →
  ∃ x1 x2 x3 x4 pin,
    ext_Tk (ext w) = (x1, inr tt)
    ∧ ext_withdraw x1 = (x2, inr tt)
    ∧ ext_askstring "AmpliFi Teleport" "Enter your Teleport PIN (e.g., AB123):" x2
      = (x3, inr pin)
    ∧ ext_destroy x3 = (x4, inr tt)
    ∧ if truthy pin then
        ∃ w1 ok msg,
          generate_config pin (prompted w x4) = (w1, Return (ok, msg))
          ∧ if ok then
              let '(xa, ra) := ext_run uninstall_cmd (files w1) (ext w1) in
              let wa := after_run w1 uninstall_cmd xa in
              match ra with
              | inl _ => on_connect w = (wa, Return (Some not_connected))
              | inr _ =>
                  let '(xb, rb) := ext_run install_cmd (files w1) xa in
                  let wb := after_run wa install_cmd xb in
                  match rb with
                  | inl _ => on_connect w = (wb, Return (Some not_connected))
                  | inr cp =>
                      if (returncode cp =? 0)%Z then
                        ∃ x', on_connect w
                              = (shown (EShowInfo "Result" "Tunnel activated!") wb x',
                                 Return (Some connected))
                      else
                        match stderr cp with
                        | Utf8 detail =>
                            ∃ x', on_connect w
                                  = (shown (EShowInfo "Result"
                                              ("Error: Activation failed: " ++ detail)%string)
                                       wb x',
                                     Return (Some connected))
                        | Undecodable _ =>
                            on_connect w = (wb, Return (Some not_connected))
                        end
                  end
              end
            else
              ∃ x', on_connect w
                    = (shown (EShowError "Error" ("Generation failed: " ++ msg)%string) w1 x',
                       Return (Some connected))
      else on_connect w = (prompted w x4, Return (Some connected)).
Proof.
  intros Htok (Htk & Hwd & Hds & Hask & Hinfo & Herr).
  destruct (Htk (ext w)) as [x1 H1]. destruct (Hwd x1) as [x2 H2].
  destruct (Hask "AmpliFi Teleport" "Enter your Teleport PIN (e.g., AB123):" x2)
    as (x3 & pin & H3).
  destruct (Hds x3) as [x4 H4].
  exists x1, x2, x3, x4, pin. do 4 (split; [done|]).
  assert (path_exists TOKEN_FILE w = (w, Return false)) as Hex.
  { unfold path_exists. rewrite Htok.
    by rewrite bool_decide_eq_false_2 by (by intros [? ?]). }
  assert (∀ t m (w' : World X), ∃ x', showinfo t m w' = (shown (EShowInfo t m) w' x', Return tt))
    as Hsi.
  { intros t m w'. unfold showinfo, emit, call, bind, shown. simpl.
    destruct (Hinfo t m (ext w')) as [x' ->]. by exists x'. }
  assert (∀ t m (w' : World X), ∃ x', showerror t m w' = (shown (EShowError t m) w' x', Return tt))
    as Hse.
  { intros t m w'. unfold showerror, emit, call, bind, shown. simpl.
    destruct (Herr t m (ext w')) as [x' ->]. by exists x'. }
  rewrite (on_connect_prompted w Hex).
  rewrite (show_pin_dialog_prompted true w x1 x2 x3 pin x4 H1 H2 H3 H4).
  destruct (truthy pin); [|done].
  destruct (generate_config_returns pin (prompted w x4)) as (w1 & ok & msg & Hg & Hcfg).
  exists w1, ok, msg. split; [done|].
  rewrite (bind_return _ _ _ _ _ Hg). cbn beta iota.
  destruct ok.
  - pose proof (activate_tunnel_cases w1 _ Hcfg) as Ha. unfold bind.
    destruct (ext_run uninstall_cmd (files w1) (ext w1)) as [xa [l|cpa]].
    { by rewrite Ha. }
    destruct (ext_run install_cmd (files w1) xa) as [xb [l|cpb]].
    { by rewrite Ha. }
    rewrite Ha. destruct (returncode cpb =? 0)%Z.
    + destruct (Hsi "Result" "Tunnel activated!"
                  (after_run (after_run w1 uninstall_cmd xa) install_cmd xb)) as [x' Hs].
      exists x'. by rewrite Hs.
    + destruct (stderr cpb) as [detail|reason]; [|done].
      destruct (Hsi "Result" ("Error: " ++ ("Activation failed: " ++ detail))%string
                  (after_run (after_run w1 uninstall_cmd xa) install_cmd xb)) as [x' Hs].
      exists x'. by rewrite Hs.
  - destruct (Hse "Error" ("Generation failed: " ++ msg)%string w1) as [x' Hs].
    exists x'. by rewrite Hs.
Qed.

End Connect.

(** *** On the simulated host, continued *)



(** C7, witness: a service is already installed from an older config. *)
Lemma activate_tunnel_idempotent_witness :
  let w := Sim.world [(Sim.config_path, "[Interface]")] [] (Some "[Old]") in
  ∃ w1 r1 w2 r2,
    @activate_tunnel _ (Sim.external Sim.healthy) w = (w1, r1)
    ∧ @activate_tunnel _ (Sim.external Sim.healthy) w1 = (w2, r2)
    ∧ Sim.service (ext w2) = Sim.service (ext w1)
    ∧ Sim.service (ext w1) = Some "[Interface]"
    ∧ succeeded r1 = true
    ∧ succeeded r2 = succeeded r1.
Proof.
  intros w.
  apply (@activate_tunnel_idempotent _ (Sim.external Sim.healthy)
           Sim.service (λ _, true)).
  - intros fs [[c|] n]; eexists _, _; split; reflexivity.
  - intros fs [svc n] c Hsvc Hc. simpl in Hsvc. subst svc.
    eexists _, _. split.
    { change (@ext_run _ (Sim.external Sim.healthy) install_cmd fs
                {| Sim.service := None; Sim.lingering := n |})
        with (Sim.wireguard Sim.healthy "/installtunnelservice"
                (@CONFIG_PATH _ (Sim.external Sim.healthy)) fs
                {| Sim.service := None; Sim.lingering := n |}).
      unfold Sim.wireguard. simpl. rewrite Hc. reflexivity. }
    split; reflexivity.
  - reflexivity.
Defined.

(** Without the removal step the second installation is turned down. *)
Example sim_install_twice_fails :
  (Sim.run Sim.healthy ["wireguard.exe"; "/installtunnelservice"; Sim.config_path]
     (list_to_map [(Sim.config_path, "[Interface]")])
     {| Sim.service := Some "[Interface]"; Sim.lingering := 0 |}).2
  = Sim.completed 1 "" "Tunnel already installed and running".
Proof. vm_compute. reflexivity. Qed.



(** A carriage return inside a token does not survive the text-mode
    round trip either. *)
Example carriage_return_not_preserved :
  TextIO.decode (TextIO.encode (String "a" (String TextIO.CR "b")))
  = String "a" (String TextIO.LF "b").
Proof. reflexivity. Qed.



(** C10, witness: the manager refuses the config; the user is told so
    and Connect still reports success. *)
Lemma on_connect_without_token_witness :
  let w := Sim.world [] [] None in
  ∃ w', @on_connect _ (Sim.external Sim.rejects_config) w
        = (w', Return (Some (true, "Successfully Created New Connection")))
        ∧ last (trace w')
          = Some (EShowInfo "Result"
                    "Error: Activation failed: Unable to parse configuration").
Proof.
  intros w.
  assert (files w !! @TOKEN_FILE _ (Sim.external Sim.rejects_config) = None) as Htok
    by reflexivity.
  assert (@dialogs_never_raise _ (Sim.external Sim.rejects_config)) as Hgui
    by (repeat split; intros; eexists; try eexists; reflexivity).
  pose proof (@on_connect_without_token _ (Sim.external Sim.rejects_config) w Htok Hgui)
    as (x1 & x2 & x3 & x4 & pin & H1 & H2 & H3 & H4 & Hrest).
  vm_compute in H1, H2, H3, H4.
  injection H1 as <-. injection H2 as <-. injection H3 as <- <-. injection H4 as <-.
  change (truthy (Some "AB123")) with true in Hrest. cbv iota in Hrest.
  destruct Hrest as (w1 & ok & msg & Hg & Hrest).
  vm_compute in Hg. injection Hg as <- <- <-.
  vm_compute in Hrest. destruct Hrest as [x' Hrest].
  eexists. split; [vm_compute; exact Hrest | reflexivity].
Defined.

(** C10, as the claim states it, fails: [wireguard.exe] is not on the
    PATH, the activation inside the PIN flow raises, and Connect returns
    the failure pair. *)
Lemma on_connect_reflects_launch_failure :
  let w := Sim.world [] [] None in
  files w !! Sim.token_path = None
  ∧ (@on_connect _ (Sim.external Sim2.no_wireguard) w).2
    = Return (Some (false, "Error Creating New Connection")).
Proof. vm_compute. split; reflexivity. Qed.

(** The install command fails and its standard error cannot be decoded:
    the handler in [activate_tunnel] raises, and Connect returns the
    failure pair here too. *)
Example on_connect_undecodable_stderr :
  (@on_connect _ Sim2.garbled (Sim.world [] [] None)).2
  = Return (Some (false, "Error Creating New Connection")).
Proof. vm_compute. reflexivity. Qed.

(** The same host: Disconnect's removal raises out of its own handler,
    and a reset is stopped before it deletes anything. *)
Example deactivate_tunnel_undecodable_stderr :
  let w := Sim.world Sim.full_slots [] (Some "[Interface]") in
  (@deactivate_tunnel _ Sim2.garbled w).2
  = Raise (UnicodeDecodeError
             "'utf-8' codec can't decode byte 0x81 in position 0: invalid start byte")
  ∧ (@on_delete_config _ Sim2.garbled w).2
    = Return (Some (false, "Error while deleting configuration"))
  ∧ files (@on_delete_config _ Sim2.garbled w).1 = files w.
Proof. vm_compute. repeat split; reflexivity. Qed.

(** The disk is full when the new config is written: the generation
    fails, the new token is kept, and the old config is gone. *)
Example generate_config_disk_full :
  let w := Sim.world [(Sim.config_path, "[Old]")] [] None in
  let '(w', r) := @generate_config _ Sim2.disk_full (Some "AB123") w in
  r = Return (false, "[Errno 28] No space left on device")
  ∧ files w' !! Sim.token_path = Some "tok-71"
  ∧ files w' !! Sim.config_path = Some "".
Proof. vm_compute. repeat split; reflexivity. Qed.

Example on_connect_rejected_config_trace :
  trace (@on_connect _ (Sim.external Sim.rejects_config) (Sim.world [] [] None)).1
  = [EAskString "AmpliFi Teleport" "Enter your Teleport PIN (e.g., AB123):";
     ERemote "generate_client_hint" [];
     ERemote "get_device_token" ["3f2a9c"; "AB123"];
     ERemote "connect_device" ["tok-71"];
     ERun uninstall_cmd;
     ERun ["wireguard.exe"; "/installtunnelservice"; Sim.config_path];
     EShowInfo "Result" "Error: Activation failed: Unable to parse configuration"].
Proof. vm_compute. reflexivity. Qed.

(** * More of the code *)

(** ** Config generation and activation *)

Section Generation.
Context {X : Type} `{External X}.


(** X2: without a PIN ([None] or the empty string) and without a stored
    token, [generate_config] fails with its own message and does nothing
    else: no remote call, no file written. *)
Theorem generate_config_without_pin_or_token (pin : option string) (w : World X) :
  truthy pin = false →
  files w !! TOKEN_FILE = None →
  generate_config pin w
  = (w, Return (false, "No previous token found. Please enter a new PIN.")).
Proof.
  intros Hpin Htok. unfold generate_config. rewrite Hpin. prims. exec. reflexivity.
Qed.

Lemma generate_config_issue_keeps (w : World X) pin :
  truthy pin = true →
  ∃ w1 r1 evs1, generate_config pin w = (w1, r1)
    ∧ trace w1 = trace w ++ evs1
    ∧ ∀ t, remote_args "connect_device" evs1 = [[t]] →
           files w1 !! TOKEN_FILE = Some (TextIO.encode t)
           ∧ (succeeded r1 = false →
              files w1 !! CONFIG_PATH = files w !! CONFIG_PATH
              ∨ ∃ n cfg, files w1 !! CONFIG_PATH = Some (torn n cfg)).
Proof.
  intros Hpin. destruct slots_distinct as (Hut & Huc & Htc).
  unfold generate_config. rewrite Hpin. prims. exec.
  all: eexists _, _, _; (split; [reflexivity|]); simpl;
    rewrite <- ?app_assoc; (split; [reflexivity|]); simpl;
    intros t Ht; simplify_eq; (split; [|intros ?]);
    first [ by simplify_map_eq | left; by simplify_map_eq
          | right; eexists _, _; by simplify_map_eq ].
Qed.


(** X4: [activate_tunnel] ignores how the removal command ends.  Once
    both commands have run, what happens is decided by the install
    command alone: return code 0 is a success; another return code is
    a failure that carries the command's standard error, decoded, and
    when that cannot be decoded the [UnicodeDecodeError] escapes from
    the handler. *)
Theorem activate_tunnel_ignores_removal_outcome (w : World X) c x1 cp1 x2 cp2 :
  files w !! CONFIG_PATH = Some c →
  ext_run uninstall_cmd (files w) (ext w) = (x1, inr cp1) →
  ext_run install_cmd (files w) x1 = (x2, inr cp2) →
  ∃ w', activate_tunnel w
        = (w', if (returncode cp2 =? 0)%Z then Return (true, "Tunnel activated!")
               else match stderr cp2 with
                    | Utf8 detail =>
                        Return (false, ("Activation failed: " ++ detail)%string)
                    | Undecodable reason => Raise (UnicodeDecodeError reason)
                    end)
        ∧ files w' = files w
        ∧ trace w' = trace w ++ [ERun uninstall_cmd; ERun install_cmd].
Proof.
  intros Hc H1 H2. pose proof (activate_tunnel_cases w c Hc) as Ha.
  rewrite H1 in Ha. simpl in Ha. rewrite H2 in Ha.
  eexists. split; [exact Ha|]. simpl. split; [done|]. by rewrite <- app_assoc.
Qed.

(** X5: when [wireguard.exe] cannot be launched, [activate_tunnel]
    does not return a failure pair: the launch error escapes as an
    exception, and the install command is never tried. *)
Theorem activate_tunnel_launch_error_escapes (w : World X) c x1 l :
  files w !! CONFIG_PATH = Some c →
  ext_run uninstall_cmd (files w) (ext w) = (x1, inl l) →
  activate_tunnel w = (after_run w uninstall_cmd x1, Raise (launch_exn l)).
Proof.
  intros Hc H1. pose proof (activate_tunnel_cases w c Hc) as Ha.
  by rewrite H1 in Ha.
Qed.

(** X6: with a token stored, Connect is a refresh, and a refresh has no
    handler around the activation: when the config is regenerated and
    [wireguard.exe] cannot be launched, [on_connect] raises instead of
    returning an outcome. *)
Theorem on_connect_refresh_raises (w : World X) tok w1 cfg x1 l :
  files w !! TOKEN_FILE = Some tok →
  generate_config None w = (w1, Return (true, cfg)) →
  ext_run uninstall_cmd (files w1) (ext w1) = (x1, inl l) →
  on_connect w = (after_run w1 uninstall_cmd x1, Raise (launch_exn l)).
Proof.
  intros Htok Hg Hrun.
  destruct (generate_config_returns None w) as (w1' & ok & msg & Hg' & Hcfg).
  rewrite Hg in Hg'. injection Hg' as <- <- <-. simpl in Hcfg.
  pose proof (activate_tunnel_cases w1 _ Hcfg) as Ha. rewrite Hrun in Ha.
  assert (path_exists TOKEN_FILE w = (w, Return true)) as Hex.
  { unfold path_exists. rewrite Htok. by rewrite bool_decide_eq_true_2 by eauto. }
  unfold on_connect. rewrite (bind_return _ _ _ _ _ Hex). cbn [negb].
  unfold on_refresh_config. rewrite (bind_return _ _ _ _ _ Hex). cbn [negb].
  rewrite (bind_return _ _ _ _ _ Hg). cbn beta iota.
  unfold bind. by rewrite Ha.
Qed.

End Generation.

(** ** What the operations never do *)

Section Never.
Context {X : Type} `{External X}.
Implicit Types (T : list Event → Prop).

Lemma count_app f (a b : list Event) : count f (a ++ b) = (count f a + count f b)%nat.
Proof. induction a as [|e a IH]; simpl; [done|]. rewrite IH. lia. Qed.

Lemma grown_refl f (t0 : list Event) : grown_without f t0 t0.
Proof. exists []. by rewrite app_nil_r. Qed.

Lemma grown_step f (t0 t : list Event) e :
  f e = false → grown_without f t0 t → grown_without f t0 (t ++ [e]).
Proof.
  intros He (evs & -> & Hc). exists (evs ++ [e]). split; [by rewrite app_assoc|].
  rewrite count_app, Hc. simpl. by rewrite He.
Qed.

Lemma preserves_trace_emit T e :
  (∀ t, T t → T (t ++ [e])) → preserves (X:=X) (on_trace T) (emit e).
Proof. intros HT w Hw. by apply HT. Qed.

Lemma preserves_trace_call {A} T (f : X → X * (exn + A)) :
  preserves (on_trace T) (call f).
Proof. intros w Hw. unfold call. by destruct (f (ext w)). Qed.

Lemma preserves_trace_subprocess_run T args check :
  (∀ t, T t → T (t ++ [ERun args])) →
  preserves (X:=X) (on_trace T) (subprocess_run args check).
Proof.
  intros HT w Hw. unfold subprocess_run.
  destruct (ext_run args (files w) (ext w)) as [x' [l|cp]]; simpl; [by apply HT|].
  destruct (check && _); by apply HT.
Qed.

Lemma preserves_trace_path_exists T p : preserves (X:=X) (on_trace T) (path_exists p).
Proof. by intros w. Qed.

Lemma preserves_trace_read_text T p : preserves (X:=X) (on_trace T) (read_text p).
Proof. intros w Hw. unfold read_text. by destruct (files w !! p). Qed.

Lemma preserves_trace_write_text T p s : preserves (X:=X) (on_trace T) (write_text p s).
Proof.
  intros w Hw. unfold write_text. case_decide; [done|].
  by destruct (ext_write p s (ext w)) as [x' [[e n]|[]]].
Qed.

(** A step that adds to the trace only events failing [f]. *)
Ltac quiet_step :=
  first
    [ apply preserves_ret | apply preserves_raise | apply preserves_bytes_decode
    | apply preserves_trace_call | apply preserves_trace_path_exists
    | apply preserves_trace_read_text | apply preserves_trace_write_text
    | apply preserves_trace_emit; intros ? ?; by apply grown_step
    | apply preserves_trace_subprocess_run; intros ? ?; by apply grown_step ].

Ltac quiet :=
  split_computation ltac:(quiet_step) (@preserves_bind X) (@preserves_try X).

Lemma on_refresh_config_never_asks_pin (t0 : list Event) :
  preserves (X:=X) (on_trace (grown_without asks_pin t0)) on_refresh_config.
Proof.
  unfold on_refresh_config, generate_config, activate_tunnel, connect_device,
    showinfo, showerror.
  simpl. quiet.
Qed.

(** X7: with a token stored, Connect never asks for a PIN and never
    requests a new token: the stored token is all it uses. *)
Theorem on_connect_with_token_never_asks_pin (w : World X) tok :
  files w !! TOKEN_FILE = Some tok →
  ∃ evs, trace (on_connect w).1 = trace w ++ evs ∧ count asks_pin evs = 0%nat.
Proof.
  intros Htok.
  assert (path_exists TOKEN_FILE w = (w, Return true)) as Hex.
  { unfold path_exists. rewrite Htok. by rewrite bool_decide_eq_true_2 by eauto. }
  unfold on_connect. rewrite (bind_return _ _ _ _ _ Hex). cbn [negb].
  apply (on_refresh_config_never_asks_pin (trace w) w). apply grown_refl.
Qed.

(** Writing or removing one path leaves every other path alone. *)
Lemma write_keeps_other (p q s : string) (v : option string) :
  q ≠ p → preserves (X:=X) (on_files (λ fs _, fs !! p = v)) (write_text q s).
Proof.
  intros Hne. apply preserves_write_text. intros fs lk c Hv _.
  by rewrite lookup_insert_ne.
Qed.

Lemma remove_keeps_other (p q : string) (v : option string) :
  q ≠ p → preserves (X:=X) (on_files (λ fs _, fs !! p = v)) (os_remove q).
Proof.
  intros Hne. apply preserves_os_remove. intros fs lk Hv _.
  by rewrite lookup_delete_ne.
Qed.

Ltac other_step :=
  first
    [ by apply write_keeps_other | by apply remove_keeps_other
    | solve [auto with preserve] ].

Ltac other :=
  split_computation ltac:(other_step) (@preserves_bind X) (@preserves_try X).

Section OtherPath.
Variables (p : string) (v : option string).
Hypothesis not_token : TOKEN_FILE ≠ p.
Hypothesis not_uuid : UUID_FILE ≠ p.
Hypothesis not_config : CONFIG_PATH ≠ p.

Local Abbreviation kept := (on_files (λ fs _, fs !! p = v)).

Lemma generate_config_keeps_other pin : preserves (X:=X) kept (generate_config pin).
Proof. unfold generate_config. other. Qed.

Hint Resolve generate_config_keeps_other preserves_activate_tunnel
  preserves_deactivate_tunnel preserves_is_tunnel_active preserves_tk_Tk
  preserves_root_withdraw preserves_root_destroy preserves_askstring
  preserves_askyesno preserves_showinfo preserves_showerror : preserve.

Lemma show_pin_dialog_keeps_other b : preserves (X:=X) kept (show_pin_dialog b).
Proof. unfold show_pin_dialog. other. Qed.

Lemma on_refresh_config_keeps_other : preserves (X:=X) kept on_refresh_config.
Proof. unfold on_refresh_config. other. Qed.

Lemma on_connect_keeps_other : preserves (X:=X) kept on_connect.
Proof.
  pose proof show_pin_dialog_keeps_other. pose proof on_refresh_config_keeps_other.
  unfold on_connect. other.
Qed.

Lemma on_disconnect_keeps_other : preserves (X:=X) kept on_disconnect.
Proof. unfold on_disconnect. simpl. other. Qed.

Lemma on_delete_config_keeps_other : preserves (X:=X) kept on_delete_config.
Proof. unfold on_delete_config. other. Qed.

Lemma run_any_keeps_other (o : AnyOp) (w : World X) :
  files w !! p = v → files (run_any o w) !! p = v.
Proof.
  intros Hv. destruct o as [[]|]; simpl.
  - by apply generate_config_keeps_other.
  - by apply (preserves_activate_tunnel (λ fs _, fs !! p = v)).
  - by apply (preserves_deactivate_tunnel (λ fs _, fs !! p = v)).
  - by apply (preserves_is_tunnel_active (λ fs _, fs !! p = v)).
  - by apply show_pin_dialog_keeps_other.
  - by apply on_refresh_config_keeps_other.
  - by apply on_connect_keeps_other.
  - by apply on_disconnect_keeps_other.
  - by apply on_delete_config_keeps_other.
Qed.

End OtherPath.

(** X8: no operation, the reset included, creates, changes or removes
    a file other than the three slot files. *)
Theorem only_slots_are_touched (o : AnyOp) (w : World X) (p : string) :
  p ∉ slots → files (run_any o w) !! p = files w !! p.
Proof.
  unfold slots. intros Hp.
  apply run_any_keeps_other; [| | |done]; intros <-; apply Hp; set_solver.
Qed.

(** X9: the [retries] and [delay] arguments of [is_tunnel_active] have
    no effect, as long as one attempt is allowed: every path through
    the loop body returns at the first pass. *)
Theorem is_tunnel_active_ignores_retries (retries retries' : Z) (delay delay' : float)
    (w : World X) :
  (0 < retries)%Z → (0 < retries')%Z →
  is_tunnel_active retries delay w = is_tunnel_active retries' delay' w.
Proof. intros Hr Hr'. by rewrite !is_tunnel_active_once. Qed.

(** X10: whatever [APPDATA] is, the three slots are three different
    files directly under [CONFIG_DIR], which ends in "AmpliFiTeleport";
    and when [APPDATA] ends in a character other than a separator and
    a colon, [CONFIG_DIR] is the directory "AmpliFiTeleport" directly
    under it. *)
Theorem slots_are_distinct_files :
  (∃ pre, CONFIG_DIR = (pre ++ "AmpliFiTeleport")%string)
  ∧ UUID_FILE = (CONFIG_DIR ++ "\teleport_uuid")%string
  ∧ TOKEN_FILE = (CONFIG_DIR ++ "\teleport_token_0")%string
  ∧ CONFIG_PATH = (CONFIG_DIR ++ "\teleport.conf")%string
  ∧ NoDup [UUID_FILE; TOKEN_FILE; CONFIG_PATH]
  ∧ ∀ e, PyStr.last_char APPDATA = Some e →
         NtPath.is_sep e = false → e ≠ NtPath.colon →
         CONFIG_DIR = (APPDATA ++ "\AmpliFiTeleport")%string.
Proof.
  destruct slots_distinct as (Hut & Huc & Htc).
  split; [apply CONFIG_DIR_suffix|].
  split; [apply UUID_FILE_path|].
  split; [apply TOKEN_FILE_path|].
  split; [apply CONFIG_PATH_path|].
  split.
  - rewrite !NoDup_cons, !elem_of_cons, !elem_of_nil.
    intuition (auto using NoDup_nil_2).
  - intros e He Hsep Hcolon.
    destruct (NtPathFacts.join_relative APPDATA "AmpliFiTeleport" "A")
      as (pre & Hpre & Hplain); [reflexivity..|].
    unfold CONFIG_DIR, path_join. rewrite Hpre, (Hplain e He Hsep Hcolon).
    by rewrite PyStrFacts.append_assoc.
Qed.

End Never.

(** ** Disconnecting and resetting *)

Section Teardown.
Context {X : Type} `{External X}.

Local Arguments poll_loop : simpl never.

(** The first pass through the poll loop. *)
Lemma poll_loop_first (w : World X) :
  poll_loop poll_fuel 0.0%float w
  = bind (is_tunnel_active 3 1.0%float)
      (λ active : bool,
         if negb active then ret (Some (true, "Tunnel deactivated!"))
         else bind (time_sleep poll_interval)
                (λ _, poll_loop 15 (0.0 + poll_interval)%float)) w.
Proof. reflexivity. Qed.

(** X11: when the removal is acknowledged and the first status query
    does not report a running service, [deactivate_tunnel] returns
    [(True, "Tunnel deactivated!")] after that one query, without
    sleeping. *)
Theorem deactivate_tunnel_confirmed_at_once (w : World X) x1 cp x2 r :
  ext_run uninstall_cmd (files w) (ext w) = (x1, inr cp) →
  returncode cp = 0 →
  ext_run query_cmd (files w) x1 = (x2, r) →
  running_reported r = false →
  deactivate_tunnel w
  = (after_query (after_run w uninstall_cmd x1) x2 r, Return (true, "Tunnel deactivated!")).
Proof.
  intros Hrun Hrc Hq Hr. pose proof (deactivate_tunnel_cases w) as Hc.
  rewrite Hrun, Hrc in Hc. simpl in Hc. destruct Hc as (w' & r' & Hp & ->).
  rewrite poll_loop_first in Hp. unfold bind in Hp.
  rewrite is_tunnel_active_once in Hp by lia. simpl in Hp.
  rewrite Hq, Hr in Hp. simpl in Hp. by injection Hp as <- <-.
Qed.

(** X12: when the removal command fails, [deactivate_tunnel] makes no
    status query.  With a standard error that can be decoded and does
    not mention "not found" it returns
    [(False, "Deactivation failed: <stderr>")]; with one that cannot be
    decoded, the [UnicodeDecodeError] raised inside the handler
    escapes. *)
Theorem deactivate_tunnel_rejected (w : World X) x1 cp :
  ext_run uninstall_cmd (files w) (ext w) = (x1, inr cp) →
  returncode cp ≠ 0 →
  (∀ detail,
     stderr cp = Utf8 detail →
     PyStr.contains "not found" (PyStr.lower detail) = false →
     deactivate_tunnel w
     = (after_run w uninstall_cmd x1,
        Return (false, ("Deactivation failed: " ++ detail)%string)))
  ∧ (∀ reason,
       stderr cp = Undecodable reason →
       deactivate_tunnel w
       = (after_run w uninstall_cmd x1, Raise (UnicodeDecodeError reason))).
Proof.
  intros Hrun Hrc. pose proof (deactivate_tunnel_cases w) as Hc.
  rewrite Hrun in Hc. simpl in Hc.
  destruct (returncode cp =? 0)%Z eqn:Hz; [lia|].
  split.
  - intros detail Hd Hnf. by rewrite Hd, Hnf in Hc.
  - intros reason Hd. by rewrite Hd in Hc.
Qed.

(** X13: when [wireguard.exe] cannot be launched, Disconnect raises the
    launch error and shows no dialog. *)
Theorem on_disconnect_launch_error_escapes (w : World X) x1 l :
  ext_run uninstall_cmd (files w) (ext w) = (x1, inl l) →
  on_disconnect w = (after_run w uninstall_cmd x1, Raise (launch_exn l)).
Proof.
  intros Hrun. pose proof (deactivate_tunnel_cases w) as Hc. rewrite Hrun in Hc.
  unfold on_disconnect. simpl. unfold bind. by rewrite Hc.
Qed.

(** X14: an acknowledged removal always ends in a success pair, after at
    most 11 status queries, and leaves every file as it was. *)
Theorem deactivate_tunnel_wait_is_bounded (w : World X) x1 cp :
  ext_run uninstall_cmd (files w) (ext w) = (x1, inr cp) →
  returncode cp = 0 →
  ∃ w' msg evs,
    deactivate_tunnel w = (w', Return (true, msg))
    ∧ (msg = "Tunnel deactivated!" ∨ msg = advisory)
    ∧ trace w' = trace w ++ ERun uninstall_cmd :: evs
    ∧ (count is_query evs ≤ 11)%nat
    ∧ files w' = files w.
Proof.
  intros Hrun Hrc.
  destruct (deactivate_tunnel_acknowledged w x1 cp Hrun Hrc)
    as (w' & msg & evs & Hd & Hm & Ht & Hn).
  destruct (deactivate_tunnel_frame w) as (w'' & r & evs' & Hd' & _ & Hf & _).
  rewrite Hd in Hd'. injection Hd' as <- <-.
  by exists w', msg, evs.
Qed.

(** X15: the reset deletes nothing when [wireguard.exe] cannot be
    launched.  The launch error raised by the deactivation step is
    caught by the handler around the deletions, which reports the
    failure. *)
Theorem on_delete_config_blocked_by_launch_error (w : World X) x1 x2 l x3 :
  ext_askyesno "Confirm" "Delete previous configuration and reset?" (ext w)
  = (x1, inr true) →
  ext_run uninstall_cmd (files w) x1 = (x2, inl l) →
  ext_showerror "Error" ("Deletion failed: " ++ str (launch_exn l))%string x2
  = (x3, inr tt) →
  ∃ w', on_delete_config w
        = (w', Return (Some (false, "Error while deleting configuration")))
        ∧ files w' = files w
        ∧ trace w' = trace w ++
            [EAskYesNo "Confirm" "Delete previous configuration and reset?";
             ERun uninstall_cmd;
             EShowError "Error" ("Deletion failed: " ++ str (launch_exn l))%string].
Proof.
  intros Hask Hrun Herr.
  unfold on_delete_config.
  erewrite bind_return by (unfold askyesno, emit, call, bind; simpl; by rewrite Hask).
  simpl.
  match goal with |- context [try_except _ _ ?w1] =>
    pose proof (deactivate_tunnel_cases w1) as Hc end.
  simpl in Hc. rewrite Hrun in Hc.
  unfold try_except at 1. unfold bind at 1. rewrite Hc.
  unfold showerror, emit, call, bind, ret. simpl. simpl in Herr. rewrite Herr.
  eexists. split; [reflexivity|]. simpl. split; [done|]. by rewrite <- !app_assoc.
Qed.

(** X16: a PIN prompt that is cancelled, or answered with nothing,
    ends the first connection there: no remote call, no command, no file
    written, and [on_connect] still returns its success pair. *)
Theorem on_connect_cancelled_pin (w : World X) x1 x2 x3 pin x4 :
  files w !! TOKEN_FILE = None →
  ext_Tk (ext w) = (x1, inr tt) →
  ext_withdraw x1 = (x2, inr tt) →
  ext_askstring "AmpliFi Teleport" "Enter your Teleport PIN (e.g., AB123):" x2
  = (x3, inr pin) →
  truthy pin = false →
  ext_destroy x3 = (x4, inr tt) →
  on_connect w
  = ({| files := files w; locked := locked w; ext := x4;
        trace := trace w ++
          [EAskString "AmpliFi Teleport" "Enter your Teleport PIN (e.g., AB123):"] |},
     Return (Some (true, "Successfully Created New Connection"))).
Proof.
  intros Htok Htk Hwd Hask Hpin Hds.
  unfold on_connect, show_pin_dialog. prims. simpl.
  rewrite Htok. rewrite bool_decide_eq_false_2 by (by intros [? ?]). simpl.
  rewrite Htk. simpl. rewrite Hwd. simpl. rewrite Hask. simpl.
  rewrite Hds. simpl. by rewrite Hpin.
Qed.

(** X17: [on_connect] never falls off its end: it returns a pair, or
    raises. *)
Theorem on_connect_always_answers (w : World X) :
  ∃ w' r, on_connect w = (w', r)
          ∧ match r with Return None | OutOfFuel => False | _ => True end.
Proof.
  unfold on_connect.
  destruct (files w !! TOKEN_FILE) as [tok|] eqn:Htok.
  - assert (path_exists TOKEN_FILE w = (w, Return true)) as Hex.
    { unfold path_exists. rewrite Htok. by rewrite bool_decide_eq_true_2 by eauto. }
    rewrite (bind_return _ _ _ _ _ Hex). cbn [negb].
    unfold on_refresh_config. rewrite (bind_return _ _ _ _ _ Hex). cbn [negb].
    destruct (generate_config_returns None w) as (w1 & ok & msg & Hg & _).
    rewrite (bind_return _ _ _ _ _ Hg). cbn beta iota.
    destruct ok.
    + unfold bind at 1.
      pose proof (fuel_free_activate_tunnel w1) as Hfuel.
      destruct (activate_tunnel w1) as [w2 [[ok2 m2]|e|]]; simpl in *;
        [|by eexists _, _|done].
      unfold showinfo, emit, call, bind, ret. simpl.
      match goal with |- context [ext_showinfo ?a ?b ?c] =>
        destruct (ext_showinfo a b c) as [x3 [e|[]]] end; simpl; by eexists _, _.
    + unfold showerror, emit, call, bind, ret. simpl.
      match goal with |- context [ext_showerror ?a ?b ?c] =>
        destruct (ext_showerror a b c) as [x3 [e|[]]] end; simpl; by eexists _, _.
  - assert (path_exists TOKEN_FILE w = (w, Return false)) as Hex.
    { unfold path_exists. rewrite Htok.
      by rewrite bool_decide_eq_false_2 by (by intros [? ?]). }
    rewrite (bind_return _ _ _ _ _ Hex). cbn [negb].
    unfold try_except, bind.
    pose proof (fuel_free_show_pin_dialog true w) as Hfuel.
    destruct (show_pin_dialog true w) as [w1 [[]|e|]]; simpl in *;
      [by eexists _, _|by eexists _, _|done].
Qed.

End Teardown.

(** ** Elevation and the controls window *)

Section StartupFacts.
Context {X : Type} `{External X} `{Elevation X}.

(** X18: [run_elevated] returns normally only for an administrator.
    When the check answers 0 or raises, it requests an elevated relaunch
    of [sys.executable] with the joined [sys.argv] and exits with code
    0, whatever the request answers. *)
Theorem run_elevated_exits_unless_admin (w : World X) x1 r x2 h :
  ext_IsUserAnAdmin (ext w) = (x1, r) →
  ext_ShellExecuteW "runas" sys_executable (String.concat " " sys_argv) x1 = (x2, inr h) →
  run_elevated w
  = if match r with inr z => negb (z =? 0)%Z | inl _ => false end
    then ({| files := files w; locked := locked w; ext := x1; trace := trace w |},
          Return None)
    else ({| files := files w; locked := locked w; ext := x2; trace := trace w |},
          Return (Some 0)).
Proof.
  intros Hadmin Hshell.
  unfold run_elevated, is_admin, try_except, call, bind, ret. rewrite Hadmin.
  destruct r as [e|z]; simpl.
  - by rewrite Hshell.
  - unfold truthy, truthy_Z. destruct (z =? 0)%Z; simpl; [|done]. by rewrite Hshell.
Qed.

(** X19: [refresh_buttons] makes one status query and rebuilds the
    buttons from nothing: Disconnect when the query reports a running
    service and Connect otherwise, then the delete button when some slot
    file exists, then Quit.  Each call packs one more version label onto
    the root window. *)
Theorem refresh_buttons_layout (win : Window) (w : World X) x' r :
  ext_run query_cmd (files w) (ext w) = (x', r) →
  refresh_buttons win w
  = (after_query w x' r,
     Return {| content_frame :=
                 (if running_reported r then [disconnect_button] else [connect_button])
                 ++ (if any_slot_exists (files w) then [delete_button] else [])
                 ++ [quit_button];
               root_labels := root_labels win ++ ["Version 1.0.0"] |}).
Proof.
  intros Hq. unfold refresh_buttons. unfold bind at 1.
  rewrite is_tunnel_active_once by lia. rewrite Hq.
  unfold after_query, any_slot_exists, path_exists, bind, ret, pack. cbn.
  destruct (running_reported r); cbn;
    destruct (bool_decide (is_Some (files w !! TOKEN_FILE))); cbn;
    try reflexivity;
    destruct (bool_decide (is_Some (files w !! UUID_FILE))); cbn;
    try reflexivity;
    destruct (bool_decide (is_Some (files w !! CONFIG_PATH))); reflexivity.
Qed.

(** X20: pressing the delete button and declining the confirmation
    raises in [action_and_refresh]: [on_delete_config] returns [None],
    which cannot be unpacked, and the buttons are not refreshed. *)
Theorem action_and_refresh_declined_delete (win : Window) (w : World X) x1 :
  ext_askyesno "Confirm" "Delete previous configuration and reset?" (ext w)
  = (x1, inr false) →
  action_and_refresh Hdelete win w
  = ({| files := files w; locked := locked w; ext := x1;
        trace := trace w ++
          [EAskYesNo "Confirm" "Delete previous configuration and reset?"] |},
     Raise (Exception "cannot unpack non-iterable NoneType object")).
Proof.
  intros Hask.
  unfold action_and_refresh, run_handler, on_delete_config, askyesno,
    emit, call, raise, ret, bind.
  simpl. by rewrite Hask.
Qed.

End StartupFacts.

(** ** On the simulated host: witnesses *)

Section Witnesses.

Local Abbreviation healthy := (Sim.external Sim.healthy).
Local Abbreviation idle := {| Sim.service := None; Sim.lingering := 0 |}.

(** X2, witness: the empty PIN, nothing stored. *)
Lemma generate_config_without_pin_or_token_witness :
  @generate_config _ healthy (Some "") (Sim.world [] [] None)
  = (Sim.world [] [] None,
     Return (false, "No previous token found. Please enter a new PIN.")).
Proof.
  apply (@generate_config_without_pin_or_token _ healthy); reflexivity.
Defined.


(** X4, witness: nothing is installed, so the removal fails; the
    activation succeeds all the same. *)
Lemma activate_tunnel_ignores_removal_outcome_witness :
  let w := Sim.world [(Sim.config_path, "[Interface]")] [] None in
  ∃ w', @activate_tunnel _ healthy w = (w', Return (true, "Tunnel activated!"))
        ∧ files w' = files w
        ∧ trace w' = [ERun uninstall_cmd; ERun (@install_cmd _ healthy)].
Proof.
  intros w.
  apply (@activate_tunnel_ignores_removal_outcome _ healthy w "[Interface]" idle
           {| returncode := 1; stdout := "";
              stderr := Utf8 "Uninstall failed: service not found" |}
           {| Sim.service := Some "[Interface]"; Sim.lingering := 0 |}
           {| returncode := 0; stdout := ""; stderr := Utf8 "" |});
    reflexivity.
Defined.

(** X5, witness: [wireguard.exe] is not on the PATH. *)
Lemma activate_tunnel_launch_error_escapes_witness :
  let w := Sim.world [(Sim.config_path, "[Interface]")] [] None in
  (@activate_tunnel _ (Sim.external Sim2.no_wireguard) w).2
  = Raise (launch_exn LaunchNotFound).
Proof.
  intros w.
  rewrite (@activate_tunnel_launch_error_escapes _ (Sim.external Sim2.no_wireguard)
             w "[Interface]" idle LaunchNotFound); reflexivity.
Defined.

(** X6, witness: a token is stored and [wireguard.exe] is missing. *)
Lemma on_connect_refresh_raises_witness :
  let w := Sim.world [(Sim.token_path, "tok-71")] [] None in
  (@on_connect _ (Sim.external Sim2.no_wireguard) w).2
  = Raise (launch_exn LaunchNotFound).
Proof.
  intros w.
  rewrite (@on_connect_refresh_raises _ (Sim.external Sim2.no_wireguard) w "tok-71"
             (@generate_config _ (Sim.external Sim2.no_wireguard) None w).1
             "[Interface]" idle LaunchNotFound); reflexivity.
Defined.

(** X7, witness: a refresh on the healthy host. *)
Lemma on_connect_with_token_never_asks_pin_witness :
  let w := Sim.world [(Sim.token_path, "tok-71")] [] None in
  ∃ evs, trace (@on_connect _ healthy w).1 = trace w ++ evs
         ∧ count asks_pin evs = 0%nat.
Proof.
  intros w.
  apply (@on_connect_with_token_never_asks_pin _ healthy w "tok-71"). reflexivity.
Defined.

(** X8, witness: a stranger's file survives the reset. *)
Lemma only_slots_are_touched_witness :
  let w := Sim.world (("C:\notes.txt", "keep") :: Sim.full_slots) [] None in
  files (@run_any _ healthy OnDeleteConfig w) !! "C:\notes.txt" = Some "keep".
Proof.
  intros w.
  rewrite (@only_slots_are_touched _ healthy OnDeleteConfig w "C:\notes.txt");
    [reflexivity|].
  intros Hin. vm_compute in Hin.
  repeat (apply elem_of_cons in Hin as [Hin|Hin]; [discriminate Hin|]).
  by apply elem_of_nil in Hin.
Defined.

(** X9, witness: the defaults against the window's arguments. *)
Lemma is_tunnel_active_ignores_retries_witness :
  @is_tunnel_active _ healthy 3 1.0%float (Sim.world [] [] None)
  = @is_tunnel_active _ healthy 4 0.8%float (Sim.world [] [] None).
Proof. apply (@is_tunnel_active_ignores_retries _ healthy); lia. Defined.

(** X11, witness: the service is gone at the first query. *)
Lemma deactivate_tunnel_confirmed_at_once_witness :
  let w := Sim.world [] [] (Some "[Interface]") in
  (@deactivate_tunnel _ healthy w).2 = Return (true, "Tunnel deactivated!")
  ∧ count is_query (trace (@deactivate_tunnel _ healthy w).1) = 1%nat.
Proof.
  intros w.
  rewrite (@deactivate_tunnel_confirmed_at_once _ healthy w idle
             {| returncode := 0; stdout := ""; stderr := Utf8 "" |} idle
             (Sim.completed 1060 Sim.missing_report ""));
    [split| | | |]; reflexivity.
Defined.

(** X12, witness: the removal is refused for lack of rights. *)
Lemma deactivate_tunnel_rejected_witness :
  (@deactivate_tunnel _ Sim2.access_denied (Sim.world [] [] None)).2
  = Return (false, "Deactivation failed: Access is denied.").
Proof.
  destruct (@deactivate_tunnel_rejected _ Sim2.access_denied (Sim.world [] [] None) idle
              {| returncode := 5; stdout := ""; stderr := Utf8 "Access is denied." |})
    as [Hdecoded _]; [reflexivity | simpl; lia |].
  rewrite (Hdecoded "Access is denied."); reflexivity.
Defined.

(** X13, witness: [wireguard.exe] is missing. *)
Lemma on_disconnect_launch_error_escapes_witness :
  @on_disconnect _ (Sim.external Sim2.no_wireguard) (Sim.world [] [] None)
  = ({| files := ∅; locked := ∅; ext := idle; trace := [ERun uninstall_cmd] |},
     Raise (launch_exn LaunchNotFound)).
Proof.
  apply (@on_disconnect_launch_error_escapes _ (Sim.external Sim2.no_wireguard)
           (Sim.world [] [] None) idle LaunchNotFound).
  reflexivity.
Defined.

(** X14, witness: the service that is slow to stop. *)
Lemma deactivate_tunnel_wait_is_bounded_witness :
  let w := Sim.world [] [] (Some "[Interface]") in
  ∃ w' msg evs,
    @deactivate_tunnel _ (Sim.external Sim.slow_to_stop) w = (w', Return (true, msg))
    ∧ (msg = "Tunnel deactivated!" ∨ msg = advisory)
    ∧ trace w' = trace w ++ ERun uninstall_cmd :: evs
    ∧ (count is_query evs ≤ 11)%nat
    ∧ files w' = files w.
Proof.
  intros w.
  apply (@deactivate_tunnel_wait_is_bounded _ (Sim.external Sim.slow_to_stop) w
           {| Sim.service := None; Sim.lingering := 20 |}
           {| returncode := 0; stdout := ""; stderr := Utf8 "" |}); reflexivity.
Defined.

(** X15, witness: all slots present, [wireguard.exe] missing. *)
Lemma on_delete_config_blocked_by_launch_error_witness :
  let w := Sim.world Sim.full_slots [] None in
  ∃ w', @on_delete_config _ (Sim.external Sim2.no_wireguard) w
        = (w', Return (Some (false, "Error while deleting configuration")))
        ∧ files w' = files w
        ∧ trace w' = trace w ++
            [EAskYesNo "Confirm" "Delete previous configuration and reset?";
             ERun uninstall_cmd;
             EShowError "Error"
               "Deletion failed: [WinError 2] The system cannot find the file specified"].
Proof.
  intros w.
  apply (@on_delete_config_blocked_by_launch_error _ (Sim.external Sim2.no_wireguard)
           w idle idle LaunchNotFound idle); reflexivity.
Defined.

(** X16, witness: the prompt is cancelled. *)
Lemma on_connect_cancelled_pin_witness :
  @on_connect _ (Sim.external Sim2.pin_cancelled) (Sim.world [] [] None)
  = ({| files := ∅; locked := ∅; ext := idle;
        trace := [EAskString "AmpliFi Teleport" "Enter your Teleport PIN (e.g., AB123):"] |},
     Return (Some (true, "Successfully Created New Connection"))).
Proof.
  apply (@on_connect_cancelled_pin _ (Sim.external Sim2.pin_cancelled)
           (Sim.world [] [] None) idle idle idle None idle); reflexivity.
Defined.

(** X18, witness: the admin check raises. *)
Lemma run_elevated_exits_unless_admin_witness :
  (@run_elevated _ (Sim2.elevation (inl (OSError "no shell32")))
     (Sim.world [] [] None)).2
  = Return (Some 0).
Proof.
  rewrite (@run_elevated_exits_unless_admin _ (Sim2.elevation (inl (OSError "no shell32")))
             (Sim.world [] [] None) idle (inl (OSError "no shell32")) idle 42);
    reflexivity.
Defined.

(** X19, witness: a running tunnel and a stored token. *)
Lemma refresh_buttons_layout_witness :
  let w := Sim.world [(Sim.token_path, "tok-71")] [] (Some "[Interface]") in
  let win := {| content_frame := [connect_button; quit_button];
                root_labels := ["Version 1.0.0"] |} in
  (@refresh_buttons _ healthy win w).2
  = Return {| content_frame := [disconnect_button; delete_button; quit_button];
              root_labels := ["Version 1.0.0"; "Version 1.0.0"] |}.
Proof.
  intros w win.
  rewrite (@refresh_buttons_layout _ healthy win w
             {| Sim.service := Some "[Interface]"; Sim.lingering := 0 |}
             (Sim.completed 0 Sim.running_report "")); reflexivity.
Defined.

(** X20, witness: the user answers No. *)
Lemma action_and_refresh_declined_delete_witness :
  (@action_and_refresh _ (Sim.external Sim2.declines) Hdelete
     {| content_frame := []; root_labels := [] |}
     (Sim.world Sim.full_slots [] None)).2
  = Raise (Exception "cannot unpack non-iterable NoneType object").
Proof.
  rewrite (@action_and_refresh_declined_delete _ (Sim.external Sim2.declines)
             {| content_frame := []; root_labels := [] |}
             (Sim.world Sim.full_slots [] None) idle); reflexivity.
Defined.

End Witnesses.
